(** * The event store of calendar_app.py

    A shallow embedding of the persistence core of [CalendarApp]: the
    [events] dictionary, [_load_events], [_save_events], the [save_and_close]
    callback of the day dialog and [clear_month].

    Modelling boundary.  The Tk widgets are left out; what they hand to the
    store (the selected year and month, the dialog's strings, the answer of
    the confirmation box) appears as arguments.  The backing file is
    modelled by what [json.loads(self._data_file.read_text())] makes of it:
    the file is missing, or reading and parsing raises, or a Python value
    comes back.  [write_text(json.dumps(data, indent=2))] either raises or
    leaves the file holding the document [data]; the text that the json
    module produces in between is the library's business and is not
    modelled.  A Python string is modelled as a [string] of characters with
    code points below 256; [str(int)] and [int(str)] have no digit limit,
    and the statements about the keys of an arbitrary file ask for keys
    within CPython's default limit of 4300 digits, where the two agree.

    The second half covers what the handlers do around the store: the year
    and month selectors of [__init__] and how every handler reads them back,
    the month grid of [draw_calendar] (with [calendar.monthdayscalendar]
    modelled after the library, month names in English), the label and the
    highlight of a day button, what [open_event_dialog] shows, and the
    whole handlers, redraw included ([save_clicked], [clear_clicked],
    [CalendarApp_new]).  How an f-string renders a list or a dictionary is
    a parameter. *)

From Stdlib Require Import ZArith List String Ascii Bool Lia.
Import ListNotations.
Local Open Scope string_scope.
Local Open Scope Z_scope.
#[local] Set Warnings "-register-all".

(** ** Python builtins used on the key strings *)

Module PyStr.

(** ['0' + r] for a remainder [r] of a division by ten. *)
Definition digit_char (r : Z) : ascii := ascii_of_N (48 + Z.to_N r).

Definition digit_value (c : ascii) : option Z :=
  let n := Z.of_N (N_of_ascii c) in
  if (48 <=? n) && (n <=? 57) then Some (n - 48) else None.

(** The digit loop of [str(int)]: least significant digit first, written
    right to left, until the quotient is zero. *)
Fixpoint digits_loop (fuel : nat) (n : Z) (acc : string) : string :=
  match fuel with
  | O => acc
  | S f =>
      let acc' := String (digit_char (n mod 10)) acc in
      if n / 10 =? 0 then acc' else digits_loop f (n / 10) acc'
  end.

(** A number below [2 ^ k] has at most [k] decimal digits. *)
Definition digits_fuel (n : Z) : nat := S (Z.to_nat (Z.log2 n)).

Definition str_nonneg (n : Z) : string := digits_loop (digits_fuel n) n EmptyString.

(** [str(z)], which is what [f"{z}"] renders for an [int]. *)
Definition str_int (z : Z) : string :=
  if z <? 0 then String "-"%char (str_nonneg (- z)) else str_nonneg z.

(** Whitespace that [int()] skips at both ends: the ASCII characters of C's
    [isspace] (9 to 13 and the blank) and, of the characters from 128 to
    255, the two Unicode spaces 133 and 160.  The separators 28 to 31 are
    not skipped. *)
Definition is_space (c : ascii) : bool :=
  let n := Z.of_N (N_of_ascii c) in
  ((9 <=? n) && (n <=? 13)) || (n =? 32) || (n =? 133) || (n =? 160).

Fixpoint all_space (s : string) : bool :=
  match s with
  | EmptyString => true
  | String c r => is_space c && all_space r
  end.

Fixpoint lstrip (s : string) : string :=
  match s with
  | EmptyString => EmptyString
  | String c r => if is_space c then lstrip r else s
  end.

(** The scan of [PyLong_FromString] after the first digit: digits, single
    underscores between digits, then only whitespace up to the end. *)
Fixpoint scan_digits (prev_underscore : bool) (s : string) (acc : Z) : option Z :=
  match s with
  | EmptyString => if prev_underscore then None else Some acc
  | String c r =>
      if Ascii.eqb c "_"%char then
        if prev_underscore then None else scan_digits true r acc
      else
        match digit_value c with
        | Some d => scan_digits false r (10 * acc + d)
        | None =>
            if negb prev_underscore && all_space s then Some acc else None
        end
  end.

Definition parse_unsigned (s : string) : option Z :=
  match s with
  | EmptyString => None
  | String c r =>
      match digit_value c with
      | Some d => scan_digits false r d
      | None => None
      end
  end.

(** [int(s)] in base ten; [None] stands for the [ValueError]. *)
Definition py_int (s : string) : option Z :=
  match lstrip s with
  | String "-"%char r => option_map Z.opp (parse_unsigned r)
  | String "+"%char r => parse_unsigned r
  | t => parse_unsigned t
  end.

(** [s.split(sep)] for a separator of one character. *)
Fixpoint split (sep : ascii) (s : string) : list string :=
  match s with
  | EmptyString => [EmptyString]
  | String c r =>
      if Ascii.eqb c sep then EmptyString :: split sep r
      else
        match split sep r with
        | h :: t => String c h :: t
        | [] => [String c EmptyString]
        end
  end.

End PyStr.

(** ** Python values and dictionaries *)

(** What [json.loads] can return, and so what a value of [events] can be. *)
Inductive pyval : Type :=
| PNone
| PBool (b : bool)
| PInt (z : Z)
| PFloat (repr : string)
| PStr (s : string)
| PList (items : list pyval)
| PDict (entries : list (string * pyval)).

(** Keys of a dictionary are compared with [==]. *)
Class PyKey (K : Type) := key_eqb : K -> K -> bool.

Class PyKeyLaws (K : Type) `{PyKey K} :=
  key_eqb_eq : forall a b : K, key_eqb a b = true <-> a = b.

(** Type alias for dictionary key: (year, month, day) *)
Definition DateKey : Type := Z * Z * Z.

Definition date_eqb (a b : DateKey) : bool :=
  let '(y1, m1, d1) := a in
  let '(y2, m2, d2) := b in
  (y1 =? y2) && (m1 =? m2) && (d1 =? d2).

#[export] Instance DateKey_PyKey : PyKey DateKey := date_eqb.
#[export] Instance string_PyKey : PyKey string := String.eqb.

(** A [dict]: its items in insertion order. *)
Definition pydict (K V : Type) : Type := list (K * V).

Section Dict.
Context {K V : Type} `{PyKey K}.

(** [d.get(k)] *)
Fixpoint dict_get (k : K) (d : pydict K V) : option V :=
  match d with
  | [] => None
  | (k', v') :: r => if key_eqb k' k then Some v' else dict_get k r
  end.

(** [d[k] = v]: an existing key keeps its place, a new one goes last. *)
Fixpoint dict_set (k : K) (v : V) (d : pydict K V) : pydict K V :=
  match d with
  | [] => [(k, v)]
  | (k', v') :: r =>
      if key_eqb k' k then (k', v) :: r else (k', v') :: dict_set k v r
  end.

(** [del d[k]]; [None] stands for the [KeyError]. *)
Fixpoint dict_del (k : K) (d : pydict K V) : option (pydict K V) :=
  match d with
  | [] => None
  | (k', v') :: r =>
      if key_eqb k' k then Some r
      else option_map (cons (k', v')) (dict_del k r)
  end.

Definition dict_keys (d : pydict K V) : list K := map fst d.

(** The invariant of every [dict]: no key twice. *)
Definition dict_wf (d : pydict K V) : Prop := NoDup (dict_keys d).
End Dict.

(** [{f(k): v for k, v in d.items()}] *)
Definition dict_comprehension {K K' V : Type} `{PyKey K'}
    (f : K -> K') (d : pydict K V) : pydict K' V :=
  fold_left (fun acc kv => dict_set (f (fst kv)) (snd kv) acc) d [].

(** Stored data per date: {'choice': str, 'note': str} *)
Definition DateData (choice note : string) : pyval :=
  PDict [("choice", PStr choice); ("note", PStr note)].

(** ** The application object, its file and the exceptions *)

Inductive exn : Type := ValueError | AttributeError | KeyError | OSError.

(** The file [events.json], seen through
    [json.loads(self._data_file.read_text())]. *)
Inductive file_state : Type :=
| FileMissing
| FileRaises (e : exn)
| FileHolds (v : pyval).

Record CalendarApp : Type := mkApp {
  events : pydict DateKey pyval;
  _data_file : file_state
}.

(** What the disk answers to one [write_text]. *)
Inductive disk_reply : Type :=
| WriteOk
| WriteFails (e : exn) (left_behind : file_state).

Inductive outcome (A : Type) : Type :=
| Returned (a : A)
| Raised (e : exn).
Arguments Returned {A} a.
Arguments Raised {A} e.

(** A method of [CalendarApp]: it returns or raises, and the object keeps
    whatever was done to it before the exception. *)
Definition M (A : Type) : Type := CalendarApp -> outcome A * CalendarApp.

Definition ret {A} (a : A) : M A := fun self => (Returned a, self).

Definition raise {A} (e : exn) : M A := fun self => (Raised e, self).

Definition bind {A B} (m : M A) (k : A -> M B) : M B :=
  fun self =>
    match m self with
    | (Returned a, self') => k a self'
    | (Raised e, self') => (Raised e, self')
    end.

Notation "x <- m ;; k" := (bind m (fun x => k))
  (at level 61, m at next level, right associativity).
Notation "m ;;; k" := (bind m (fun _ => k))
  (at level 61, right associativity).

(** [try: body / except Exception: pass]; every modelled exception derives
    from [Exception]. *)
Definition try_except_pass (body : M unit) : M unit :=
  fun self => (Returned tt, snd (body self)).

Fixpoint for_each {X} (l : list X) (body : X -> M unit) : M unit :=
  match l with
  | [] => ret tt
  | x :: r => body x ;;; for_each r body
  end.

Definition path_exists : M bool :=
  fun self =>
    (Returned match _data_file self with FileMissing => false | _ => true end,
     self).

Definition json_loads_read_text : M pyval :=
  fun self =>
    match _data_file self with
    | FileMissing => (Raised OSError, self)
    | FileRaises e => (Raised e, self)
    | FileHolds v => (Returned v, self)
    end.

(** [data.items()]: only a [dict] has it. *)
Definition py_items (data : pyval) : M (list (string * pyval)) :=
  match data with
  | PDict entries => ret entries
  | _ => raise AttributeError
  end.

(** [y, m, d = map(int, iso_str.split("-"))] *)
Definition parse_date (iso_str : string) : option DateKey :=
  match map PyStr.py_int (PyStr.split "-"%char iso_str) with
  | [Some y; Some m; Some d] => Some (y, m, d)
  | _ => None
  end.

Definition unpack_date (iso_str : string) : M DateKey :=
  match parse_date iso_str with
  | Some k => ret k
  | None => raise ValueError
  end.

Definition events_setitem (k : DateKey) (v : pyval) : M unit :=
  fun self =>
    (Returned tt, mkApp (dict_set k v (events self)) (_data_file self)).

Definition events_delitem (k : DateKey) : M unit :=
  fun self =>
    match dict_del k (events self) with
    | Some d => (Returned tt, mkApp d (_data_file self))
    | None => (Raised KeyError, self)
    end.

Definition write_text (data : pydict string pyval) (w : disk_reply) : M unit :=
  fun self =>
    match w with
    | WriteOk => (Returned tt, mkApp (events self) (FileHolds (PDict data)))
    | WriteFails e left_behind => (Raised e, mkApp (events self) left_behind)
    end.

(** ** The methods *)

(** [f"{y}-{m}-{d}"] *)
Definition date_key_str (k : DateKey) : string :=
  let '(y, m, d) := k in
  PyStr.str_int y ++ "-" ++ PyStr.str_int m ++ "-" ++ PyStr.str_int d.

Definition load_entry (entry : string * pyval) : M unit :=
  let '(iso_str, value) := entry in
  k <- unpack_date iso_str ;;
  match value with
  | PStr s => events_setitem k (DateData s EmptyString)
  | _ => events_setitem k value
  end.

Definition _load_events : M unit :=
  present <- path_exists ;;
  if present then
    try_except_pass
      (data <- json_loads_read_text ;;
       entries <- py_items data ;;
       for_each entries load_entry)
  else ret tt.

Definition _save_events (w : disk_reply) : M unit :=
  fun self =>
    let data := dict_comprehension date_key_str (events self) in
    try_except_pass (write_text data w) self.

(** The two store statements of the [save_and_close] callback of the day
    dialog, [self.events[key] = ...] and [self._save_events()]: the store's
    [set].  The redraw that ends the callback is in [save_clicked]. *)
Definition save_and_close (key : DateKey) (choice note : string)
    (w : disk_reply) : M unit :=
  events_setitem key (DateData choice note) ;;;
  _save_events w.

Definition in_month (year month_index : Z) (k : DateKey) : bool :=
  let '(y, m, _) := k in (y =? year) && (m =? month_index).

(** [clear_month], with the answer of the confirmation box: the store's
    [deleteAll] when the answer is yes. *)
Definition clear_month (year month_index : Z) (confirmed : bool)
    (w : disk_reply) : M unit :=
  if negb confirmed then ret tt
  else
    keys_to_remove <-
      (fun self =>
         ret (filter (in_month year month_index) (dict_keys (events self))) self) ;;
    for_each keys_to_remove events_delitem ;;;
    _save_events w.

(** [self.events = {}] followed by [self._load_events()], as in [__init__]:
    the store part of the constructor.  The widgets and the first
    [draw_calendar] of the constructor are in [CalendarApp_new]. *)
Definition CalendarApp_init (file : file_state) : outcome unit * CalendarApp :=
  _load_events (mkApp [] file).

(** [self.events.get(key)] *)
Definition get (self : CalendarApp) (key : DateKey) : option pyval :=
  dict_get key (events self).

(** ** Specification-side notions *)

(** The number a digit string denotes, read left to right. *)
Fixpoint digits_value (s : string) (acc : Z) : option Z :=
  match s with
  | EmptyString => Some acc
  | String c r =>
      match PyStr.digit_value c with
      | Some d => digits_value r (10 * acc + d)
      | None => None
      end
  end.

(** [numeral s n]: [s] is the decimal numeral of the positive number [n],
    its first digit not a zero. *)
Inductive numeral : string -> Z -> Prop :=
| numeral_first (d : Z) :
    1 <= d <= 9 -> numeral (String (PyStr.digit_char d) EmptyString) d
| numeral_next (s : string) (n d : Z) :
    numeral s n -> 0 <= d <= 9 ->
    numeral (s ++ String (PyStr.digit_char d) EmptyString) (10 * n + d).

(** The decimal digits of an integer, without zero-padding. *)
Inductive decimal_of : Z -> string -> Prop :=
| decimal_zero : decimal_of 0 "0"
| decimal_pos (s : string) (n : Z) : numeral s n -> decimal_of n s
| decimal_neg (s : string) (n : Z) :
    numeral s n -> decimal_of (- n) (String "-"%char s).

(** A serialized key: ["{year}-{month}-{day}"]. *)
Definition composite_key (k : DateKey) (s : string) : Prop :=
  let '(y, m, d) := k in
  exists sy sm sd,
    decimal_of y sy /\ decimal_of m sm /\ decimal_of d sd /\
    s = sy ++ "-" ++ sm ++ "-" ++ sd.

Definition date_nonneg (k : DateKey) : Prop :=
  let '(y, m, d) := k in 0 <= y /\ 0 <= m /\ 0 <= d.

(** A store as the running program can hold it: a dictionary, all of whose
    dates have non-negative components. *)
Definition store_ok (ev : pydict DateKey pyval) : Prop :=
  dict_wf ev /\ Forall date_nonneg (dict_keys ev).

Fixpoint no_dash (s : string) : bool :=
  match s with
  | EmptyString => true
  | String c r => negb (Ascii.eqb c "-"%char) && no_dash r
  end.

(** The pieces [split("-")] cuts the rendering of one component into: the
    minus sign of a negative number leaves an empty piece in front. *)
Definition pieces (z : Z) : list string :=
  if z <? 0 then [EmptyString; PyStr.str_nonneg (- z)] else [PyStr.str_nonneg z].

(** What the loop of [_load_events] stores for a parsed value. *)
Definition loaded_value (value : pyval) : pyval :=
  match value with
  | PStr s => DateData s EmptyString
  | _ => value
  end.

(** The loop of [_load_events] as a function on the dictionary: it stops at
    the first key that does not unpack. *)
Fixpoint load_loop (entries : list (string * pyval))
    (ev : pydict DateKey pyval) : pydict DateKey pyval :=
  match entries with
  | [] => ev
  | (iso_str, value) :: r =>
      match parse_date iso_str with
      | Some k => load_loop r (dict_set k (loaded_value value) ev)
      | None => ev
      end
  end.

(** The store after [_load_events], file by file. *)
Definition loaded (ev : pydict DateKey pyval) (f : file_state) :
    pydict DateKey pyval :=
  match f with
  | FileHolds (PDict entries) => load_loop entries ev
  | _ => ev
  end.

(** Membership in [keys_to_remove]. *)
Definition key_mem (k : DateKey) (ks : list DateKey) : bool :=
  existsb (date_eqb k) ks.

(** No entry of the file unpacks to the date [k]. *)
Definition absent_from_file (k : DateKey) (f : file_state) : Prop :=
  forall entries, f = FileHolds (PDict entries) ->
    Forall (fun e => parse_date (fst e) <> Some k) entries.

(** The real calendar (proleptic Gregorian), which the store never asks. *)
Definition is_leap (y : Z) : bool :=
  ((y mod 4 =? 0) && negb (y mod 100 =? 0)) || (y mod 400 =? 0).

Definition days_in_month (y m : Z) : Z :=
  match m with
  | 1 | 3 | 5 | 7 | 8 | 10 | 12 => 31
  | 4 | 6 | 9 | 11 => 30
  | 2 => if is_leap y then 29 else 28
  | _ => 0
  end.

Definition real_calendar_date (k : DateKey) : bool :=
  let '(y, m, d) := k in
  (1 <=? y) && (1 <=? d) && (d <=? days_in_month y m).

(** One call of the store's [set], with what the disk answers to its save. *)
Record set_call : Type := mkSet {
  set_date : DateKey;
  set_choice : string;
  set_note : string;
  set_reply : disk_reply
}.

Definition run_sets (calls : list set_call) : M unit :=
  for_each calls
    (fun c => save_and_close (set_date c) (set_choice c) (set_note c) (set_reply c)).

(** The last [{choice, note}] given for a date in a sequence of calls. *)
Fixpoint last_set (k : DateKey) (calls : list set_call) : option pyval :=
  match calls with
  | [] => None
  | c :: r =>
      match last_set k r with
      | Some v => Some v
      | None =>
          if date_eqb (set_date c) k
          then Some (DateData (set_choice c) (set_note c)) else None
      end
  end.

(** [save()] with a write that succeeds, then a new application object
    built on the file it left. *)
Definition reopen (self : CalendarApp) : CalendarApp :=
  snd (CalendarApp_init (_data_file (snd (_save_events WriteOk self)))).

(** ** The selectors, the month grid and the day dialog *)

Definition and_then {A B : Type} (o : outcome A) (k : A -> outcome B) : outcome B :=
  match o with
  | Returned a => k a
  | Raised e => Raised e
  end.

(** [range(a, b)] *)
Definition py_range (a b : Z) : list Z :=
  map (fun i => a + Z.of_nat i) (seq 0 (Z.to_nat (b - a))).

(** [range(0, n, step)] for a positive step *)
Definition py_range_step (n step : Z) : list Z :=
  map (fun i => step * Z.of_nat i) (seq 0 (Z.to_nat ((n + step - 1) / step))).

(** [l[i:j]] for [0 <= i <= j] *)
Definition py_slice {A : Type} (l : list A) (i j : Z) : list A :=
  firstn (Z.to_nat (j - i)) (skipn (Z.to_nat i) l).

(** [enumerate(l)] *)
Definition enumerate {A : Type} (l : list A) : list (Z * A) :=
  combine (map Z.of_nat (seq 0 (List.length l))) l.

(** [l.index(x)]; [None] stands for the [ValueError]. *)
Fixpoint list_index (x : string) (l : list string) : option Z :=
  match l with
  | [] => None
  | h :: t =>
      if String.eqb h x then Some 0 else option_map Z.succ (list_index x t)
  end.

Module PyCalendar.

(** [list(calendar.month_name)] in the English locale *)
Definition month_name : list string :=
  [EmptyString; "January"; "February"; "March"; "April"; "May"; "June"; "July";
   "August"; "September"; "October"; "November"; "December"].

(** [calendar.isleap] *)
Definition isleap (year : Z) : bool :=
  (year mod 4 =? 0) && (negb (year mod 100 =? 0) || (year mod 400 =? 0)).

(** [calendar.mdays] *)
Definition mdays : list Z := [0; 31; 28; 31; 30; 31; 30; 31; 31; 30; 31; 30; 31].

(** [datetime._days_before_year] *)
Definition days_before_year (year : Z) : Z :=
  let y := year - 1 in y * 365 + y / 4 - y / 100 + y / 400.

(** [datetime._DAYS_BEFORE_MONTH] *)
Definition DAYS_BEFORE_MONTH : list Z :=
  [-1; 0; 31; 59; 90; 120; 151; 181; 212; 243; 273; 304; 334].

(** [datetime._days_before_month] *)
Definition days_before_month (year month : Z) : Z :=
  nth (Z.to_nat month) DAYS_BEFORE_MONTH 0
  + (if (2 <? month) && isleap year then 1 else 0).

(** [datetime.date(year, month, day).toordinal()] *)
Definition ymd2ord (year month day : Z) : Z :=
  days_before_year year + days_before_month year month + day.

(** [calendar.weekday]: Monday is 0. *)
Definition weekday (year month day : Z) : Z :=
  let year' :=
    if (1 <=? year) && (year <=? 9999) then year else 2000 + year mod 400 in
  (ymd2ord year' month day + 6) mod 7.

(** [calendar.monthrange]; an illegal month raises. *)
Definition monthrange (year month : Z) : outcome (Z * Z) :=
  if (1 <=? month) && (month <=? 12) then
    Returned
      (weekday year month 1,
       nth (Z.to_nat month) mdays 0
       + (if (month =? 2) && isleap year then 1 else 0))
  else Raised ValueError.

(** [Calendar(firstweekday).itermonthdays(year, month)], as a list *)
Definition itermonthdays (firstweekday year month : Z) : outcome (list Z) :=
  and_then (monthrange year month) (fun r =>
    let '(day1, ndays) := r in
    let days_before := (day1 - firstweekday) mod 7 in
    let days_after := (firstweekday - day1 - ndays) mod 7 in
    Returned
      (repeat 0 (Z.to_nat days_before) ++ py_range 1 (ndays + 1)
       ++ repeat 0 (Z.to_nat days_after))%list).

(** [Calendar(firstweekday).monthdayscalendar(year, month)] *)
Definition monthdayscalendar (firstweekday year month : Z) : outcome (list (list Z)) :=
  and_then (itermonthdays firstweekday year month) (fun days =>
    Returned
      (map (fun i => py_slice days i (i + 7))
         (py_range_step (Z.of_nat (List.length days)) 7))).

End PyCalendar.

(** [years] of [__init__] *)
Definition years (current_year : Z) : list string :=
  map PyStr.str_int (py_range (current_year - 5) (current_year + 6)).

(** [months = list(calendar.month_name)[1:]] *)
Definition months : list string := tl PyCalendar.month_name.

(** The two lines every handler starts with:
    [month_index = list(calendar.month_name).index(self.month_var.get())]
    and [year = int(self.year_var.get())]; the result is (year, month). *)
Definition selection (year_var month_var : string) : outcome (Z * Z) :=
  match list_index month_var PyCalendar.month_name with
  | None => Raised ValueError
  | Some month_index =>
      match PyStr.py_int year_var with
      | None => Raised ValueError
      | Some year => Returned (year, month_index)
      end
  end.

(** [month_weeks] of [draw_calendar] *)
Definition month_weeks (year_var month_var : string) : outcome (list (list Z)) :=
  and_then (selection year_var month_var) (fun ym =>
    PyCalendar.monthdayscalendar 0 (fst ym) (snd ym)).

(** The days [draw_calendar] makes a button for, with row and column of
    [month_weeks]: a day [0] gets an empty label instead. *)
Definition button_days (weeks : list (list Z)) : list (Z * Z * Z) :=
  flat_map
    (fun rw =>
       flat_map
         (fun cd => if snd cd =? 0 then [] else [(fst rw, fst cd, snd cd)])
         (enumerate (snd rw)))
    (enumerate weeks).

(** Predefined list of items that can be added to a day.  Adjacent string
    literals without a comma between them are one string. *)
Definition EVENT_CHOICES : list string :=
  ["Butter Pecan";
   "Andes Mint Avalanche";
   "Dark Chocolate Decadence";
   "Caramel Fudge Cookie Dough";
   "Oreo Cookie Overload";
   "Georgia Peach";
   "Caramel Cashew";
   "Really Reese's";
   "Caramel Chocolate Pecan";
   "Chocolate Covered Strawberry";
   "Mint Cookie";
   "Chocolate Heath Crunch" ++ "Double Strawberry";
   "Chocolate Caramel Twist";
   "Devil's Food Cake";
   "Caramel Peanut Buttercup";
   "Chocolate Volcano";
   "Caramel Pecan" ++ "Crazy for Cookie Dough";
   "Snickers Swirl";
   "Saled Double Caramel Pecan";
   "Dark Chocolate Decadence";
   "Mint Explosion";
   "Turtle";
   "Dark Chocolate PB Crunch";
   "Oreo Cookie Cheesecake";
   "Caramel Turtle";
   "Double Strawberry";
   "Turtle Cheesecake";
   "Georgia Peach"].

(** [bool(v)]; the text of a [PFloat] is its [repr]. *)
Definition truthy (v : pyval) : bool :=
  match v with
  | PNone => false
  | PBool b => b
  | PInt z => negb (z =? 0)
  | PFloat r => negb (String.eqb r "0.0" || String.eqb r "-0.0")
  | PStr s => match s with EmptyString => false | _ => true end
  | PList items => match items with [] => false | _ => true end
  | PDict entries => match entries with [] => false | _ => true end
  end.

(** [bool(self.events.get(key))] *)
Definition truthy_opt (o : option pyval) : bool :=
  match o with
  | Some v => truthy v
  | None => false
  end.

(** [v.get(name)]: only a [dict] has it; a missing key gives [None]. *)
Definition py_get (v : pyval) (name : string) : outcome pyval :=
  match v with
  | PDict entries =>
      Returned match dict_get name entries with Some x => x | None => PNone end
  | _ => Raised AttributeError
  end.

(** [v[name]] on a [dict] *)
Definition py_getitem (v : pyval) (name : string) : outcome pyval :=
  match v with
  | PDict entries =>
      match dict_get name entries with
      | Some x => Returned x
      | None => Raised KeyError
      end
  | _ => Raised AttributeError
  end.

Definition newline : string := String "010"%char EmptyString.

Section Rendering.

(** How an f-string renders a list or a dictionary is left open. *)
Variable repr_container : pyval -> string.

(** [f"{v}"] *)
Definition format_value (v : pyval) : string :=
  match v with
  | PNone => "None"
  | PBool true => "True"
  | PBool false => "False"
  | PInt z => PyStr.str_int z
  | PFloat r => r
  | PStr s => s
  | _ => repr_container v
  end.

(** The button label of [draw_calendar] for one day. *)
Definition display_text (day : Z) (event_data : option pyval) : outcome string :=
  let text := PyStr.str_int day in
  match event_data with
  | None => Returned text
  | Some data =>
      if truthy data then
        and_then (py_get data "choice") (fun choice =>
        and_then
          (if truthy choice then
             and_then (py_getitem data "choice") (fun c =>
               Returned (text ++ newline ++ format_value c))
           else Returned text) (fun text1 =>
        and_then (py_get data "note") (fun note_text =>
          Returned
            (if truthy note_text
             then text1 ++ newline ++ newline ++ format_value note_text
             else text1))))
      else Returned text
  end.

Record day_button : Type := mkButton {
  btn_row : Z;
  btn_column : Z;
  btn_day : Z;
  btn_text : string;
  btn_bg : string
}.

(** One day button: its label, and the highlight if an event exists. *)
Definition make_button (self : CalendarApp) (year month_index : Z)
    (cell : Z * Z * Z) : outcome day_button :=
  let '(r, c, day) := cell in
  let key : DateKey := (year, month_index, day) in
  let event_data := dict_get key (events self) in
  and_then (display_text day event_data) (fun text =>
    Returned
      (mkButton (r + 1) c day text
         (if truthy_opt event_data then "lightblue" else "#e8f4ff"))).

Fixpoint make_buttons (self : CalendarApp) (year month_index : Z)
    (cells : list (Z * Z * Z)) : outcome (list day_button) :=
  match cells with
  | [] => Returned []
  | cell :: rest =>
      and_then (make_button self year month_index cell) (fun b =>
      and_then (make_buttons self year month_index rest) (fun bs =>
        Returned (b :: bs)))
  end.

(** [draw_calendar]: the day buttons of the selected month. *)
Definition draw_calendar (year_var month_var : string) (self : CalendarApp) :
    outcome (list day_button) :=
  and_then (selection year_var month_var) (fun ym =>
  and_then (PyCalendar.monthdayscalendar 0 (fst ym) (snd ym)) (fun weeks =>
    make_buttons self (fst ym) (snd ym) (button_days weeks))).

End Rendering.

(** What [open_event_dialog] shows when it opens: the key of the day, the
    value given to the drop-down and the note put into the text field. *)
Record dialog : Type := mkDialog {
  dlg_key : DateKey;
  dlg_choice : pyval;
  dlg_note : option pyval
}.

Definition open_event_dialog (year_var month_var : string) (day : Z)
    (self : CalendarApp) : outcome dialog :=
  and_then (selection year_var month_var) (fun ym =>
    let key : DateKey := (fst ym, snd ym, day) in
    let existing := dict_get key (events self) in
    and_then
      (match existing with
       | Some data =>
           if truthy data then py_get data "choice"
           else Returned (PStr (nth 0 EVENT_CHOICES EmptyString))
       | None => Returned (PStr (nth 0 EVENT_CHOICES EmptyString))
       end) (fun sel =>
    and_then
      (match existing with
       | Some data =>
           if truthy data then
             and_then (py_get data "note") (fun n =>
               if truthy n then
                 and_then (py_getitem data "note") (fun n' => Returned (Some n'))
               else Returned None)
           else Returned None
       | None => Returned None
       end) (fun note =>
      Returned (mkDialog key sel note)))).

(** [clear_month] as the button calls it: year and month come from the
    selectors. *)
Definition clear_month_selected (year_var month_var : string)
    (confirmed : bool) (w : disk_reply) : M unit :=
  fun self =>
    match selection year_var month_var with
    | Returned ym => clear_month (fst ym) (snd ym) confirmed w self
    | Raised e => (Raised e, self)
    end.

(** The [Save] button of a dialog opened on [day]. *)
Definition save_selected (year_var month_var : string) (day : Z)
    (choice note : string) (w : disk_reply) : M unit :=
  fun self =>
    match selection year_var month_var with
    | Returned ym => save_and_close (fst ym, snd ym, day) choice note w self
    | Raised e => (Raised e, self)
    end.

(** What the user can do to the store, with the values the widgets hold. *)
Inductive ui_action : Type :=
| ClickSave (year_var month_var : string) (day : Z) (choice note : string)
    (w : disk_reply)
| ClickClear (year_var month_var : string) (confirmed : bool) (w : disk_reply).

Section Callbacks.

Variable repr_container : pyval -> string.

(** [self.draw_calendar()] at the end of a handler: it leaves the store
    alone and passes on what it raises. *)
Definition redraw (year_var month_var : string) : M unit :=
  fun self =>
    match draw_calendar repr_container year_var month_var self with
    | Returned _ => (Returned tt, self)
    | Raised e => (Raised e, self)
    end.

(** The whole [save_and_close] callback of a dialog opened on [day]: the
    store update, then the redraw. *)
Definition save_clicked (year_var month_var : string) (day : Z)
    (choice note : string) (w : disk_reply) : M unit :=
  save_selected year_var month_var day choice note w ;;;
  redraw year_var month_var.

(** The whole [clear_month] handler: a declined confirmation returns
    before anything is done. *)
Definition clear_clicked (year_var month_var : string) (confirmed : bool)
    (w : disk_reply) : M unit :=
  clear_month_selected year_var month_var confirmed w ;;;
  if confirmed then redraw year_var month_var else ret tt.

Definition run_action (a : ui_action) : M unit :=
  match a with
  | ClickSave year_var month_var day choice note w =>
      save_clicked year_var month_var day choice note w
  | ClickClear year_var month_var confirmed w =>
      clear_clicked year_var month_var confirmed w
  end.


(** The application object after a sequence of handler calls; a handler
    that raised has left the object as it was at the exception. *)
Definition run_actions (actions : list ui_action) (self : CalendarApp) :
    CalendarApp :=
  fold_left (fun app a => snd (run_action a app)) actions self.

End Callbacks.

(** An action the widgets allow: the selectors hold one of their values and
    the day is one that has a button in the grid of that month. *)
Definition offered (current_year : Z) (a : ui_action) : Prop :=
  match a with
  | ClickSave year_var month_var day _ _ _ =>
      In year_var (years current_year) /\ In month_var months /\
      exists weeks r c,
        month_weeks year_var month_var = Returned weeks /\
        In (r, c, day) (button_days weeks)
  | ClickClear year_var month_var _ _ =>
      In year_var (years current_year) /\ In month_var months
  end.

(** The entries of a file that the loop of [_load_events] gets to: those
    before the first key that does not unpack. *)
Fixpoint readable_prefix (entries : list (string * pyval)) : list (string * pyval) :=
  match entries with
  | [] => []
  | (iso_str, value) :: r =>
      match parse_date iso_str with
      | Some _ => (iso_str, value) :: readable_prefix r
      | None => []
      end
  end.

(** The value of the last entry whose key unpacks to the date [k]. *)
Fixpoint last_entry (k : DateKey) (entries : list (string * pyval)) : option pyval :=
  match entries with
  | [] => None
  | (iso_str, value) :: r =>
      match last_entry k r with
      | Some v => Some v
      | None =>
          match parse_date iso_str with
          | Some k' => if date_eqb k' k then Some value else None
          | None => None
          end
      end
  end.

(** The number of digits of a key.  With at most 4300 of them, [int()] on
    the pieces of the key does the same under CPython's default limit on
    the digits of an integer as without it. *)
Fixpoint digit_count (s : string) : Z :=
  match s with
  | EmptyString => 0
  | String c r =>
      (match PyStr.digit_value c with Some _ => 1 | None => 0 end) + digit_count r
  end.

Definition within_digit_limit (s : string) : Prop := digit_count s <= 4300.

(** A key that unpacks to a date, whatever the interpreter's limit. *)
Definition readable_key (s : string) : Prop :=
  within_digit_limit s /\ parse_date s <> None.


(** No value of the store is a bare string. *)
Definition no_bare_string (ev : pydict DateKey pyval) : Prop :=
  Forall (fun kv => forall s, snd kv <> PStr s) ev.

(** The values the program itself writes. *)
Definition is_record (v : pyval) : Prop := exists choice note, v = DateData choice note.

(** ** Facts about the builtins *)

Example str_int_2024 : PyStr.str_int 2024 = "2024".
Proof. reflexivity. Qed.
Example str_int_neg : PyStr.str_int (-17) = "-17".
Proof. reflexivity. Qed.
Example str_int_0 : PyStr.str_int 0 = "0".
Proof. reflexivity. Qed.
Example py_int_signed : PyStr.py_int " +0_7 " = Some 7.
Proof. reflexivity. Qed.
Example py_int_empty : PyStr.py_int EmptyString = None.
Proof. reflexivity. Qed.
Example py_int_two_underscores : PyStr.py_int "1__0" = None.
Proof. reflexivity. Qed.
Example split_negative_year :
  PyStr.split "-"%char "-1-2-3" = [EmptyString; "1"; "2"; "3"].
Proof. reflexivity. Qed.

Section Builtins.
Import PyStr.

Lemma append_assoc (a b c : string) : (a ++ b) ++ c = a ++ (b ++ c).
Proof. induction a as [|x a IH]; simpl; [reflexivity | now rewrite IH]. Qed.

Lemma digit_value_digit_char (r : Z) :
  0 <= r <= 9 -> digit_value (digit_char r) = Some r.
Proof.
  intros H.
  assert (r = 0 \/ r = 1 \/ r = 2 \/ r = 3 \/ r = 4 \/ r = 5 \/ r = 6 \/
          r = 7 \/ r = 8 \/ r = 9) as Hr by lia.
  repeat (destruct Hr as [-> | Hr]; [reflexivity |]).
  subst r; reflexivity.
Qed.

(** A digit is none of the characters the key syntax treats specially. *)
Lemma digit_is_plain (c : ascii) (d : Z) :
  digit_value c = Some d ->
  Ascii.eqb c "-" = false /\ Ascii.eqb c "_" = false /\
  Ascii.eqb c "+" = false /\ is_space c = false.
Proof.
  destruct c as [[] [] [] [] [] [] [] []]; vm_compute; intros E;
    solve [discriminate E | repeat split].
Qed.

Lemma digits_value_app (a b : string) (acc : Z) :
  digits_value (a ++ b) acc =
  match digits_value a acc with
  | Some x => digits_value b x
  | None => None
  end.
Proof.
  revert acc; induction a as [|c a IH]; intros acc; simpl; [reflexivity|].
  destruct (digit_value c); [apply IH | reflexivity].
Qed.

Lemma numeral_value (s : string) (n : Z) :
  numeral s n -> digits_value s 0 = Some n.
Proof.
  induction 1 as [d Hd | s n d _ IH Hd].
  - simpl. rewrite digit_value_digit_char by lia. reflexivity.
  - rewrite digits_value_app, IH. simpl.
    rewrite digit_value_digit_char by lia. reflexivity.
Qed.

Lemma numeral_pos (s : string) (n : Z) : numeral s n -> 0 < n.
Proof. induction 1; lia. Qed.

Lemma numeral_head (s : string) (n : Z) :
  numeral s n ->
  exists c r d, s = String c r /\ digit_value c = Some d /\
                Ascii.eqb c "0" = false.
Proof.
  induction 1 as [d Hd | s n d _ IH Hd].
  - exists (digit_char d), EmptyString, d. split; [reflexivity|].
    split; [apply digit_value_digit_char; lia|].
    assert (d = 1 \/ d = 2 \/ d = 3 \/ d = 4 \/ d = 5 \/ d = 6 \/
            d = 7 \/ d = 8 \/ d = 9) as Hr by lia.
    repeat (destruct Hr as [-> | Hr]; [reflexivity |]).
    subst d; reflexivity.
  - destruct IH as (c & r & d0 & -> & Hc & H0).
    exists c, (r ++ String (digit_char d) EmptyString), d0.
    repeat split; assumption.
Qed.

(** *** [str(int)] writes the decimal numeral *)

Lemma digits_loop_numeral (fuel : nat) :
  forall (n : Z) (acc : string),
    0 < n < 2 ^ Z.of_nat fuel ->
    exists s, digits_loop fuel n acc = s ++ acc /\ numeral s n.
Proof.
  induction fuel as [|f IH]; intros n acc Hn.
  - simpl in Hn. lia.
  - cbn [digits_loop].
    assert (Hdm : n = 10 * (n / 10) + n mod 10) by (apply Z.div_mod; lia).
    assert (Hm : 0 <= n mod 10 < 10) by (apply Z.mod_pos_bound; lia).
    destruct (Z.eqb_spec (n / 10) 0) as [Hq | Hq].
    + exists (String (digit_char (n mod 10)) EmptyString). split; [reflexivity|].
      replace n with (n mod 10) at 2 by lia.
      apply numeral_first. lia.
    + assert (Hq0 : 0 <= n / 10) by (apply Z.div_pos; lia).
      rewrite Nat2Z.inj_succ, Z.pow_succ_r in Hn by lia.
      destruct (IH (n / 10) (String (digit_char (n mod 10)) acc)) as (s & Hs & Hnum);
        [lia|].
      exists (s ++ String (digit_char (n mod 10)) EmptyString). split.
      * rewrite Hs, append_assoc. reflexivity.
      * replace n with (10 * (n / 10) + n mod 10) at 2 by lia.
        apply numeral_next; [assumption | lia].
Qed.

Lemma str_nonneg_numeral (n : Z) : 0 < n -> numeral (str_nonneg n) n.
Proof.
  intros Hn. unfold str_nonneg, digits_fuel.
  destruct (digits_loop_numeral (S (Z.to_nat (Z.log2 n))) n EmptyString)
    as (s & Hs & Hnum).
  - rewrite Nat2Z.inj_succ, Z2Nat.id by apply Z.log2_nonneg.
    pose proof (Z.log2_spec n Hn). lia.
  - rewrite Hs. clear Hs.
    replace (s ++ EmptyString) with s; [assumption|].
    clear. induction s as [|c s IH]; simpl; [reflexivity | now rewrite <- IH].
Qed.

Lemma str_int_decimal (z : Z) : decimal_of z (str_int z).
Proof.
  unfold str_int. destruct (Z.ltb_spec z 0) as [Hneg | Hpos].
  - replace z with (- (- z)) at 1 by lia.
    apply decimal_neg, str_nonneg_numeral. lia.
  - destruct (Z.eq_dec z 0) as [-> | Hz].
    + apply decimal_zero.
    + apply decimal_pos, str_nonneg_numeral. lia.
Qed.

(** *** [int()] reads a numeral back *)

Lemma scan_digits_value (s : string) :
  forall acc n, digits_value s acc = Some n -> scan_digits false s acc = Some n.
Proof.
  induction s as [|c s IH]; intros acc n H; simpl in *; [assumption|].
  destruct (digit_value c) as [d|] eqn:Hc; [|discriminate].
  destruct (digit_is_plain c d Hc) as (_ & -> & _).
  apply IH, H.
Qed.

Lemma py_int_numeral (s : string) (n : Z) : numeral s n -> py_int s = Some n.
Proof.
  intros Hnum.
  pose proof (numeral_value s n Hnum) as Hv.
  destruct (numeral_head s n Hnum) as (c & r & d & -> & Hc & _).
  destruct (digit_is_plain c d Hc) as (Hdash & _ & Hplus & Hsp).
  unfold py_int. cbn [lstrip]. rewrite Hsp.
  assert (Hpu : parse_unsigned (String c r) = Some n).
  { simpl in Hv |- *. rewrite Hc in Hv |- *. apply scan_digits_value, Hv. }
  apply Ascii.eqb_neq in Hdash, Hplus.
  destruct c as [[] [] [] [] [] [] [] []]; try exact Hpu; congruence.
Qed.

Lemma py_int_str_int (n : Z) : 0 <= n -> py_int (str_int n) = Some n.
Proof.
  intros Hn. destruct (Z.eq_dec n 0) as [-> | Hz]; [reflexivity|].
  unfold str_int. destruct (Z.ltb_spec n 0); [lia|].
  apply py_int_numeral, str_nonneg_numeral. lia.
Qed.

(** *** [split("-")] on numerals *)

Lemma split_nonempty (sep : ascii) (s : string) : split sep s <> [].
Proof.
  destruct s as [|c s]; simpl; [discriminate|].
  destruct (Ascii.eqb c sep); [discriminate|].
  destruct (split sep s); discriminate.
Qed.

Lemma split_digits_dash (s rest : string) :
  forall acc n, digits_value s acc = Some n ->
    split "-" (s ++ String "-" rest) = s :: split "-" rest.
Proof.
  induction s as [|c s IH]; intros acc n H; simpl in *; [reflexivity|].
  destruct (digit_value c) as [d|] eqn:Hc; [|discriminate].
  destruct (digit_is_plain c d Hc) as (-> & _).
  rewrite (IH _ _ H). reflexivity.
Qed.

Lemma split_digits (s : string) :
  forall acc n, digits_value s acc = Some n -> split "-" s = [s].
Proof.
  induction s as [|c s IH]; intros acc n H; simpl in *; [reflexivity|].
  destruct (digit_value c) as [d|] eqn:Hc; [|discriminate].
  destruct (digit_is_plain c d Hc) as (-> & _).
  rewrite (IH _ _ H). reflexivity.
Qed.

Lemma str_nonneg_value (n : Z) :
  0 <= n -> digits_value (str_nonneg n) 0 = Some n.
Proof.
  intros Hn. destruct (Z.eq_dec n 0) as [-> | Hz]; [reflexivity|].
  apply numeral_value, str_nonneg_numeral. lia.
Qed.

Lemma str_nonneg_not_empty (n : Z) : 0 <= n -> str_nonneg n <> EmptyString.
Proof.
  intros Hn E. pose proof (str_nonneg_value n Hn) as Hv.
  rewrite E in Hv. simpl in Hv.
  destruct (Z.eq_dec n 0) as [-> | Hz]; [discriminate E|].
  injection Hv as Hv. lia.
Qed.

Lemma str_nonneg_inj (a b : Z) :
  0 <= a -> 0 <= b -> str_nonneg a = str_nonneg b -> a = b.
Proof.
  intros Ha Hb E. pose proof (str_nonneg_value a Ha) as Hva.
  rewrite E, (str_nonneg_value b Hb) in Hva. congruence.
Qed.

Lemma split_str_int_dash (z : Z) (rest : string) :
  split "-" (str_int z ++ String "-" rest) = (pieces z ++ split "-" rest)%list.
Proof.
  unfold str_int, pieces. destruct (Z.ltb_spec z 0) as [Hneg | Hpos].
  - cbn [append split]. rewrite Ascii.eqb_refl.
    rewrite (split_digits_dash _ rest 0 (- z)) by (apply str_nonneg_value; lia).
    reflexivity.
  - rewrite (split_digits_dash _ rest 0 z) by (apply str_nonneg_value; lia).
    reflexivity.
Qed.

Lemma split_str_int (z : Z) : split "-" (str_int z) = pieces z.
Proof.
  unfold str_int, pieces. destruct (Z.ltb_spec z 0) as [Hneg | Hpos].
  - cbn [split]. rewrite Ascii.eqb_refl.
    rewrite (split_digits _ 0 (- z)) by (apply str_nonneg_value; lia).
    reflexivity.
  - apply (split_digits _ 0 z), str_nonneg_value; lia.
Qed.

Lemma pieces_app_inj (a b : Z) (l l' : list string) :
  (pieces a ++ l)%list = (pieces b ++ l')%list -> a = b /\ l = l'.
Proof.
  unfold pieces.
  destruct (Z.ltb_spec a 0) as [Ha | Ha], (Z.ltb_spec b 0) as [Hb | Hb];
    simpl; intros E; inversion E as [E1].
  - apply str_nonneg_inj in E1; [|lia|lia]. split; [lia | reflexivity].
  - match goal with
    | H : EmptyString = str_nonneg _ |- _ =>
        symmetry in H; apply str_nonneg_not_empty in H; [contradiction | lia]
    end.
  - apply str_nonneg_not_empty in E1; [contradiction | lia].
  - apply str_nonneg_inj in E1; [|lia|lia]. split; [assumption | reflexivity].
Qed.

Lemma split_date_key_str (y m d : Z) :
  split "-" (date_key_str (y, m, d)) = (pieces y ++ pieces m ++ pieces d)%list.
Proof.
  unfold date_key_str. cbn [append].
  rewrite split_str_int_dash, split_str_int_dash, split_str_int. reflexivity.
Qed.

(** The key format loses nothing: two dates with one key are one date. *)
Lemma date_key_str_inj (k1 k2 : DateKey) :
  date_key_str k1 = date_key_str k2 -> k1 = k2.
Proof.
  destruct k1 as [[y1 m1] d1], k2 as [[y2 m2] d2]. intros E.
  apply (f_equal (split "-")) in E. rewrite !split_date_key_str in E.
  apply pieces_app_inj in E as [-> E].
  apply pieces_app_inj in E as [-> E].
  rewrite <- (app_nil_r (pieces d1)), <- (app_nil_r (pieces d2)) in E.
  apply pieces_app_inj in E as [-> _]. reflexivity.
Qed.

(** Unpacking reads back the key of a date without negative component. *)
Lemma parse_date_key_str (k : DateKey) :
  date_nonneg k -> parse_date (date_key_str k) = Some k.
Proof.
  destruct k as [[y m] d]. intros (Hy & Hm & Hd).
  unfold parse_date. rewrite split_date_key_str. unfold pieces.
  destruct (Z.ltb_spec y 0), (Z.ltb_spec m 0), (Z.ltb_spec d 0); try lia.
  cbn [app map].
  pose proof (py_int_str_int y Hy) as Ey.
  pose proof (py_int_str_int m Hm) as Em.
  pose proof (py_int_str_int d Hd) as Ed.
  unfold str_int in Ey, Em, Ed.
  destruct (Z.ltb_spec y 0), (Z.ltb_spec m 0), (Z.ltb_spec d 0); try lia.
  rewrite Ey, Em, Ed. reflexivity.
Qed.

(** A negative component makes the key unreadable: its minus sign is taken
    for a separator. *)
Lemma parse_date_key_str_negative (k : DateKey) :
  ~ date_nonneg k -> parse_date (date_key_str k) = None.
Proof.
  destruct k as [[y m] d]. intros Hneg.
  unfold parse_date. rewrite split_date_key_str. unfold pieces.
  destruct (Z.ltb_spec y 0), (Z.ltb_spec m 0), (Z.ltb_spec d 0);
    try (exfalso; apply Hneg; unfold date_nonneg; lia);
    cbn [app map];
    change (py_int EmptyString) with (@None Z);
    repeat match goal with
           | |- context [match py_int ?x with _ => _ end] => destruct (py_int x)
           end; reflexivity.
Qed.

(** *** What [int()] makes of a piece of a split key is not negative *)

Lemma split_no_dash (s : string) :
  Forall (fun p => no_dash p = true) (split "-" s).
Proof.
  induction s as [|c s IH]; simpl.
  - repeat constructor.
  - destruct (Ascii.eqb c "-") eqn:Hc.
    + constructor; [reflexivity | assumption].
    + destruct (split "-" s) as [|h t]; inversion IH; subst;
        constructor; simpl; try rewrite Hc; auto.
Qed.

Lemma lstrip_no_dash (s : string) :
  no_dash s = true -> no_dash (lstrip s) = true.
Proof.
  induction s as [|c s IH]; simpl; [trivial|].
  intros H. apply andb_true_iff in H as [Hc Hs].
  destruct (is_space c); [auto|]. simpl. now rewrite Hc, Hs.
Qed.

Lemma digit_value_nonneg (c : ascii) (d : Z) : digit_value c = Some d -> 0 <= d.
Proof.
  unfold digit_value.
  destruct (Z.leb_spec 48 (Z.of_N (N_of_ascii c))); simpl; [|discriminate].
  destruct (Z.of_N (N_of_ascii c) <=? 57); [|discriminate].
  intros E; injection E as <-. lia.
Qed.

Lemma scan_digits_nonneg (s : string) :
  forall b acc n, 0 <= acc -> scan_digits b s acc = Some n -> 0 <= n.
Proof.
  induction s as [|c s IH]; intros b acc n Hacc H; cbn [scan_digits] in H.
  - destruct b; [discriminate | injection H as <-; assumption].
  - destruct (Ascii.eqb c "_").
    + destruct b; [discriminate | eapply IH; eassumption].
    + destruct (digit_value c) as [d|] eqn:Hc.
      * apply digit_value_nonneg in Hc. eapply IH; [|eassumption]. lia.
      * destruct (negb b && all_space (String c s)); [|discriminate].
        injection H as <-; assumption.
Qed.

Lemma parse_unsigned_nonneg (s : string) (n : Z) :
  parse_unsigned s = Some n -> 0 <= n.
Proof.
  destruct s as [|c s]; simpl; [discriminate|].
  destruct (digit_value c) as [d|] eqn:Hc; [|discriminate].
  apply scan_digits_nonneg, (digit_value_nonneg c d Hc).
Qed.

Lemma py_int_nonneg (s : string) (z : Z) :
  no_dash s = true -> py_int s = Some z -> 0 <= z.
Proof.
  intros Hnd H. apply lstrip_no_dash in Hnd. unfold py_int in H.
  destruct (lstrip s) as [|c r]; [discriminate H|].
  simpl in Hnd. apply andb_true_iff in Hnd as [Hc _].
  destruct c as [[] [] [] [] [] [] [] []];
    try discriminate Hc; apply parse_unsigned_nonneg in H; exact H.
Qed.

Lemma parse_date_nonneg (s : string) (k : DateKey) :
  parse_date s = Some k -> date_nonneg k.
Proof.
  unfold parse_date. pose proof (split_no_dash s) as Hall.
  destruct (split "-" s) as [|a [|b [|c l]]]; simpl; try discriminate.
  - destruct (py_int a); discriminate.
  - destruct (py_int a), (py_int b); discriminate.
  - inversion Hall as [|? ? Ha Hall1]; subst.
    inversion Hall1 as [|? ? Hb Hall2]; subst.
    inversion Hall2 as [|? ? Hc _]; subst.
    destruct (py_int a) as [y|] eqn:Ey, (py_int b) as [m|] eqn:Em,
      (py_int c) as [d|] eqn:Ed, l; try discriminate.
    intros E; injection E as <-.
    repeat split; (eapply py_int_nonneg; [|eassumption]; assumption).
Qed.

End Builtins.

(** ** Facts about dictionaries *)

#[export] Instance DateKey_laws : PyKeyLaws DateKey.
Proof.
  intros [[y1 m1] d1] [[y2 m2] d2]. unfold key_eqb, DateKey_PyKey, date_eqb.
  rewrite !andb_true_iff, !Z.eqb_eq. split.
  - intros [[-> ->] ->]. reflexivity.
  - intros E. injection E as -> -> ->. auto.
Qed.

#[export] Instance string_laws : PyKeyLaws string.
Proof. intros a b. apply String.eqb_eq. Qed.

Section DictFacts.
Context {K V : Type} `{KL : PyKeyLaws K}.
Implicit Types (k : K) (v : V) (d : pydict K V).

Lemma key_eqb_refl k : key_eqb k k = true.
Proof. now apply key_eqb_eq. Qed.

Lemma key_eqb_neq (a b : K) : a <> b -> key_eqb a b = false.
Proof.
  intros Hne. destruct (key_eqb a b) eqn:E; [|reflexivity].
  apply key_eqb_eq in E. contradiction.
Qed.

Lemma key_eq_dec (a b : K) : {a = b} + {a <> b}.
Proof.
  destruct (key_eqb a b) eqn:E.
  - left. now apply key_eqb_eq.
  - right. intros ->. rewrite key_eqb_refl in E. discriminate.
Qed.

Lemma dict_get_set_same k v d : dict_get k (dict_set k v d) = Some v.
Proof.
  induction d as [|[k' v'] r IH]; simpl.
  - now rewrite key_eqb_refl.
  - destruct (key_eqb k' k) eqn:E; simpl; rewrite E; [reflexivity | exact IH].
Qed.

Lemma dict_get_set_other k k' v d :
  k <> k' -> dict_get k' (dict_set k v d) = dict_get k' d.
Proof.
  intros Hne. induction d as [|[k0 v0] r IH]; simpl.
  - now rewrite key_eqb_neq.
  - destruct (key_eqb k0 k) eqn:E; simpl.
    + apply key_eqb_eq in E; subst k0. now rewrite key_eqb_neq.
    + now rewrite IH.
Qed.

Lemma dict_get_none k d : dict_get k d = None <-> ~ In k (dict_keys d).
Proof.
  induction d as [|[k' v'] r IH]; simpl.
  - tauto.
  - destruct (key_eqb k' k) eqn:E.
    + apply key_eqb_eq in E. split; [discriminate | tauto].
    + rewrite IH. split; [|tauto].
      intros Hn [-> | Hin]; [|tauto]. rewrite key_eqb_refl in E. discriminate.
Qed.

Lemma dict_get_some_in k v d : dict_get k d = Some v -> In (k, v) d.
Proof.
  induction d as [|[k' v'] r IH]; simpl; [discriminate|].
  destruct (key_eqb k' k) eqn:E.
  - apply key_eqb_eq in E. intros E'. injection E' as ->. subst. now left.
  - auto.
Qed.

Lemma dict_in_get k v d : dict_wf d -> In (k, v) d -> dict_get k d = Some v.
Proof.
  unfold dict_wf, dict_keys.
  induction d as [|[k' v'] r IH]; simpl; [tauto|].
  intros Hnd [E | Hin]; inversion Hnd as [|? ? Hnotin Hnd']; subst.
  - injection E as -> ->. now rewrite key_eqb_refl.
  - destruct (key_eqb k' k) eqn:E; [|auto].
    apply key_eqb_eq in E; subst k'. exfalso. apply Hnotin.
    change k with (fst (k, v)). now apply in_map.
Qed.

Lemma dict_set_fresh k v d :
  ~ In k (dict_keys d) -> dict_set k v d = (d ++ [(k, v)])%list.
Proof.
  induction d as [|[k' v'] r IH]; simpl; [reflexivity|].
  intros Hn. rewrite key_eqb_neq by tauto. rewrite IH by tauto. reflexivity.
Qed.

Lemma dict_keys_set_present k v d :
  In k (dict_keys d) -> dict_keys (dict_set k v d) = dict_keys d.
Proof.
  induction d as [|[k' v'] r IH]; simpl; [tauto|].
  intros Hin. destruct (key_eqb k' k) eqn:E; simpl; [reflexivity|].
  f_equal. apply IH. destruct Hin as [-> | Hin]; [|assumption].
  rewrite key_eqb_refl in E. discriminate.
Qed.

Lemma dict_keys_set k v d :
  dict_keys (dict_set k v d) =
  if in_dec key_eq_dec k (dict_keys d) then dict_keys d
  else (dict_keys d ++ [k])%list.
Proof.
  destruct (in_dec key_eq_dec k (dict_keys d)) as [Hin | Hn].
  - now apply dict_keys_set_present.
  - rewrite dict_set_fresh by assumption. unfold dict_keys.
    now rewrite map_app.
Qed.

Lemma dict_wf_set k v d : dict_wf d -> dict_wf (dict_set k v d).
Proof.
  unfold dict_wf. rewrite dict_keys_set.
  destruct (in_dec key_eq_dec k (dict_keys d)) as [Hin | Hn]; [trivial|].
  intros Hnd. apply NoDup_app; [assumption | repeat constructor; simpl; tauto |].
  intros a Ha [<- | []]. contradiction.
Qed.

Lemma dict_keys_set_all (P : K -> Prop) k v d :
  P k -> Forall P (dict_keys d) -> Forall P (dict_keys (dict_set k v d)).
Proof.
  intros Hk Hd. rewrite dict_keys_set.
  destruct (in_dec key_eq_dec k (dict_keys d)); [assumption|].
  apply Forall_app. split; [assumption | now constructor].
Qed.

(** [del d[k]] of a key of the dictionary removes its one entry. *)
Lemma dict_del_present k d :
  dict_wf d -> In k (dict_keys d) ->
  dict_del k d = Some (filter (fun kv => negb (key_eqb (fst kv) k)) d).
Proof.
  unfold dict_wf, dict_keys.
  induction d as [|[k' v'] r IH]; simpl; [tauto|].
  intros Hnd Hin. inversion Hnd as [|? ? Hnotin Hnd']; subst.
  destruct (key_eqb k' k) eqn:E; simpl.
  - apply key_eqb_eq in E; subst k'. f_equal. symmetry.
    apply forallb_filter_id, forallb_forall. intros [k0 v0] Hkv. simpl.
    rewrite key_eqb_neq; [reflexivity|].
    intros ->. apply Hnotin. change k with (fst (k, v0)). now apply in_map.
  - rewrite IH; [reflexivity | assumption |].
    destruct Hin as [-> | Hin]; [|assumption].
    rewrite key_eqb_refl in E. discriminate.
Qed.

Lemma dict_del_absent k d : ~ In k (dict_keys d) -> dict_del k d = None.
Proof.
  induction d as [|[k' v'] r IH]; simpl; [reflexivity|].
  intros Hn. rewrite key_eqb_neq by tauto. rewrite IH by tauto. reflexivity.
Qed.

Lemma dict_wf_filter (p : K * V -> bool) d : dict_wf d -> dict_wf (filter p d).
Proof.
  unfold dict_wf, dict_keys.
  induction d as [|kv r IH]; simpl; [trivial|].
  intros Hnd. inversion Hnd as [|? ? Hnotin Hnd']; subst.
  destruct (p kv); simpl; [|auto].
  constructor; [|auto].
  intros Hin. apply Hnotin. apply in_map_iff in Hin as (x & Hx & Hin).
  apply filter_In in Hin as [Hin _]. rewrite <- Hx. now apply in_map.
Qed.

Lemma dict_get_filter (p : K -> bool) k d :
  dict_get k (filter (fun kv => p (fst kv)) d) =
  if p k then dict_get k d else None.
Proof.
  induction d as [|[k' v'] r IH]; simpl.
  - now destruct (p k).
  - destruct (p k') eqn:Hp; simpl.
    + destruct (key_eqb k' k) eqn:E; [|exact IH].
      apply key_eqb_eq in E; subst k'. now rewrite Hp.
    + rewrite IH. destruct (key_eqb k' k) eqn:E; [|reflexivity].
      apply key_eqb_eq in E; subst k'. now rewrite Hp.
Qed.

End DictFacts.

(** A comprehension over distinct keys that stay distinct keeps every item,
    in order. *)
Lemma dict_comprehension_map {K K' V : Type} `{PyKeyLaws K'}
    (f : K -> K') (d : pydict K V) :
  (forall a b, f a = f b -> a = b) ->
  NoDup (map fst d) ->
  dict_comprehension f d = map (fun kv => (f (fst kv), snd kv)) d.
Proof.
  intros Hinj Hnd. unfold dict_comprehension.
  enough (G : forall acc : pydict K' V,
             NoDup (dict_keys acc ++ map f (map fst d)) ->
             fold_left (fun acc kv => dict_set (f (fst kv)) (snd kv) acc) d acc
             = (acc ++ map (fun kv => (f (fst kv), snd kv)) d)%list).
  { apply (G []). simpl. clear G.
    induction d as [|[k v] r IH]; simpl; [constructor|].
    inversion Hnd as [|? ? Hnotin Hnd']; subst.
    constructor; [|auto].
    intros Hin. apply in_map_iff in Hin as (x & Hx & Hin).
    apply Hinj in Hx. subst x. contradiction. }
  clear Hnd. induction d as [|[k v] r IH]; intros acc Hacc; simpl.
  - now rewrite app_nil_r.
  - simpl in Hacc. rewrite dict_set_fresh.
    + rewrite IH.
      * rewrite <- app_assoc. reflexivity.
      * unfold dict_keys in *. rewrite map_app, <- app_assoc. exact Hacc.
    + intros Hin. apply NoDup_remove_2 in Hacc. apply Hacc.
      apply in_or_app. now left.
Qed.

(** ** The methods as functions on the store *)

Lemma date_nonneg_dec (k : DateKey) : {date_nonneg k} + {~ date_nonneg k}.
Proof.
  destruct k as [[y m] d]. unfold date_nonneg.
  destruct (Z_le_dec 0 y), (Z_le_dec 0 m), (Z_le_dec 0 d);
    solve [left; auto | right; intuition].
Qed.

Lemma load_entry_eq (s : string) (v : pyval) (self : CalendarApp) :
  load_entry (s, v) self =
  match parse_date s with
  | Some k =>
      (Returned tt,
       mkApp (dict_set k (loaded_value v) (events self)) (_data_file self))
  | None => (Raised ValueError, self)
  end.
Proof.
  unfold load_entry, unpack_date, bind.
  destruct (parse_date s) as [k|]; [|reflexivity].
  destruct v; reflexivity.
Qed.

Lemma for_each_load_entry (entries : list (string * pyval)) :
  forall ev f,
    snd (for_each entries load_entry (mkApp ev f)) = mkApp (load_loop entries ev) f.
Proof.
  induction entries as [|[s v] r IH]; intros ev f; [reflexivity|].
  cbn [for_each load_loop]. unfold bind at 1. rewrite load_entry_eq.
  cbn [events _data_file].
  destruct (parse_date s) as [k|]; [apply IH | reflexivity].
Qed.

Lemma _load_events_eq (self : CalendarApp) :
  _load_events self =
  (Returned tt, mkApp (loaded (events self) (_data_file self)) (_data_file self)).
Proof.
  destruct self as [ev f]. unfold _load_events, bind, path_exists.
  cbn [_data_file events].
  destruct f as [|e|v]; try reflexivity.
  unfold try_except_pass. f_equal.
  unfold json_loads_read_text. cbn [_data_file].
  destruct v; try reflexivity.
  unfold py_items, ret. apply for_each_load_entry.
Qed.

Lemma _save_events_eq (w : disk_reply) (self : CalendarApp) :
  _save_events w self =
  (Returned tt,
   mkApp (events self)
     match w with
     | WriteOk =>
         FileHolds (PDict (dict_comprehension date_key_str (events self)))
     | WriteFails _ left_behind => left_behind
     end).
Proof. destruct w; reflexivity. Qed.

Lemma save_and_close_eq (key : DateKey) (choice note : string)
    (w : disk_reply) (self : CalendarApp) :
  save_and_close key choice note w self =
  _save_events w
    (mkApp (dict_set key (DateData choice note) (events self)) (_data_file self)).
Proof. reflexivity. Qed.

(** *** The loop of [_load_events] *)

Lemma load_loop_app (pre rest : list (string * pyval)) :
  forall ev,
    Forall (fun e => parse_date (fst e) <> None) pre ->
    load_loop (pre ++ rest) ev = load_loop rest (load_loop pre ev).
Proof.
  induction pre as [|[s v] r IH]; intros ev Hall; [reflexivity|].
  inversion Hall as [|? ? Hs Hr]; subst. simpl in Hs |- *.
  destruct (parse_date s); [apply IH, Hr | contradiction].
Qed.

Lemma load_loop_get_other (k : DateKey) (entries : list (string * pyval)) :
  forall ev,
    Forall (fun e => parse_date (fst e) <> Some k) entries ->
    dict_get k (load_loop entries ev) = dict_get k ev.
Proof.
  induction entries as [|[s v] r IH]; intros ev Hall; [reflexivity|].
  inversion Hall as [|? ? Hs Hr]; subst. simpl in Hs |- *.
  destruct (parse_date s) as [k'|]; [|reflexivity].
  rewrite IH by assumption. apply dict_get_set_other. congruence.
Qed.

Lemma load_loop_keeps_keys (k : DateKey) (entries : list (string * pyval)) :
  forall ev,
    dict_get k ev <> None -> dict_get k (load_loop entries ev) <> None.
Proof.
  induction entries as [|[s v] r IH]; intros ev Hk; [assumption|].
  simpl. destruct (parse_date s) as [k'|]; [|assumption].
  apply IH. destruct (key_eq_dec k' k) as [-> | Hne].
  - rewrite dict_get_set_same. discriminate.
  - now rewrite dict_get_set_other.
Qed.

Lemma load_loop_ok (entries : list (string * pyval)) :
  forall ev, store_ok ev -> store_ok (load_loop entries ev).
Proof.
  induction entries as [|[s v] r IH]; intros ev Hok; [assumption|].
  simpl. destruct (parse_date s) as [k|] eqn:Hs; [|assumption].
  apply IH. destruct Hok as [Hwf Hnn]. split.
  - now apply dict_wf_set.
  - apply dict_keys_set_all; [|assumption]. eapply parse_date_nonneg, Hs.
Qed.

(** Reading back what a comprehension over readable keys wrote. *)
Lemma load_loop_saved (k : DateKey) (d : pydict DateKey pyval) :
  forall ev,
    store_ok d ->
    dict_get k
      (load_loop (map (fun kv => (date_key_str (fst kv), snd kv)) d) ev)
    = match dict_get k d with
      | Some v => Some (loaded_value v)
      | None => dict_get k ev
      end.
Proof.
  induction d as [|[k0 v0] r IH]; intros ev [Hwf Hnn]; [reflexivity|].
  inversion Hwf as [|? ? Hnotin Hwf']; subst.
  inversion Hnn as [|? ? Hk0 Hnn']; subst.
  cbn [map load_loop fst snd]. rewrite (parse_date_key_str k0 Hk0).
  rewrite IH by (split; assumption).
  cbn [dict_get]. destruct (key_eq_dec k0 k) as [-> | Hne].
  - rewrite key_eqb_refl.
    apply dict_get_none in Hnotin. rewrite Hnotin.
    apply dict_get_set_same.
  - rewrite (key_eqb_neq k0 k Hne).
    destruct (dict_get k r); [reflexivity|]. now apply dict_get_set_other.
Qed.

Lemma saved_document (ev : pydict DateKey pyval) :
  dict_wf ev ->
  dict_comprehension date_key_str ev
  = map (fun kv => (date_key_str (fst kv), snd kv)) ev.
Proof. intros Hwf. apply dict_comprehension_map; [apply date_key_str_inj | exact Hwf]. Qed.

(** After a successful save and a restart the store holds, for a running
    program's store, every date it held. *)
Lemma reopen_get (self : CalendarApp) (k : DateKey) :
  store_ok (events self) ->
  get (reopen self) k = option_map loaded_value (get self k).
Proof.
  intros Hok. unfold reopen, CalendarApp_init, get.
  rewrite _save_events_eq, _load_events_eq. cbn [snd events _data_file loaded].
  rewrite saved_document by apply Hok.
  rewrite load_loop_saved by assumption.
  destruct (dict_get k (events self)); reflexivity.
Qed.

(** The store of a running program stays a dictionary of non-negative
    dates: it starts as one and every method keeps it one. *)
Lemma CalendarApp_init_ok (file : file_state) :
  store_ok (events (snd (CalendarApp_init file))).
Proof.
  unfold CalendarApp_init. rewrite _load_events_eq. cbn [snd events _data_file].
  assert (H0 : store_ok (@nil (DateKey * pyval))) by (split; constructor).
  destruct file as [| |[]]; try exact H0. now apply load_loop_ok.
Qed.

Lemma save_and_close_ok (key : DateKey) (choice note : string)
    (w : disk_reply) (self : CalendarApp) :
  date_nonneg key -> store_ok (events self) ->
  store_ok (events (snd (save_and_close key choice note w self))).
Proof.
  intros Hk [Hwf Hnn]. rewrite save_and_close_eq, _save_events_eq.
  cbn [snd events]. split; [now apply dict_wf_set | now apply dict_keys_set_all].
Qed.

(** *** The loop of [clear_month] *)

Lemma filter_twice {A : Type} (p q : A -> bool) (l : list A) :
  filter q (filter p l) = filter (fun x => p x && q x) l.
Proof.
  induction l as [|x l IH]; simpl; [reflexivity|].
  destruct (p x); simpl; [destruct (q x); now rewrite IH | exact IH].
Qed.

Lemma key_mem_in (k : DateKey) (ks : list DateKey) :
  key_mem k ks = true <-> In k ks.
Proof.
  unfold key_mem. rewrite existsb_exists. split.
  - intros (x & Hx & E). apply (key_eqb_eq (K := DateKey)) in E. now subst.
  - intros Hin. exists k. split; [assumption | apply (key_eqb_refl (K := DateKey))].
Qed.

(** Deleting keys that were read off the dictionary never raises. *)
Lemma for_each_delitem (ks : list DateKey) :
  forall ev f,
    dict_wf ev -> NoDup ks -> incl ks (dict_keys ev) ->
    for_each ks events_delitem (mkApp ev f)
    = (Returned tt, mkApp (filter (fun kv => negb (key_mem (fst kv) ks)) ev) f).
Proof.
  induction ks as [|k r IH]; intros ev f Hwf Hnd Hincl.
  - simpl. unfold ret. do 2 f_equal. symmetry.
    apply forallb_filter_id, forallb_forall. reflexivity.
  - inversion Hnd as [|? ? Hnotin Hnd']; subst.
    cbn [for_each]. unfold bind at 1, events_delitem at 1. cbn [events _data_file].
    rewrite dict_del_present; [|assumption | apply Hincl; now left].
    rewrite IH; [| now apply dict_wf_filter | assumption |].
    + rewrite filter_twice. do 2 f_equal. apply filter_ext.
      intros [k0 v0]. cbn [fst key_mem existsb].
      change (key_eqb k0 k) with (date_eqb k0 k).
      now rewrite negb_orb.
    + intros x Hx. assert (Hxin : In x (dict_keys ev)) by (apply Hincl; now right).
      unfold dict_keys in *. apply in_map_iff in Hxin as ([x' v] & <- & Hin).
      apply in_map. apply filter_In. split; [assumption|].
      cbn [fst]. rewrite key_eqb_neq; [reflexivity|].
      cbn [fst] in Hx. intros ->. contradiction.
Qed.

Lemma clear_month_eq (year month_index : Z) (w : disk_reply) (self : CalendarApp) :
  dict_wf (events self) ->
  clear_month year month_index true w self
  = _save_events w
      (mkApp (filter (fun kv => negb (in_month year month_index (fst kv)))
                (events self))
         (_data_file self)).
Proof.
  intros Hwf. destruct self as [ev f]. cbn [events _data_file] in *.
  unfold clear_month. cbn [negb]. unfold bind at 1. unfold ret at 1.
  cbn [events]. unfold bind at 1.
  rewrite for_each_delitem.
  - do 2 f_equal. apply filter_ext_in. intros [k v] Hin. cbn [fst]. f_equal.
    apply eq_true_iff_eq. rewrite key_mem_in, filter_In. split; [tauto|].
    intros Hm. split; [|assumption].
    unfold dict_keys. change k with (fst (k, v)). now apply in_map.
  - assumption.
  - apply NoDup_filter, Hwf.
  - intros x Hx. now apply filter_In in Hx.
Qed.

(** *** A sequence of [set] calls *)

Lemma run_sets_eq (calls : list set_call) :
  forall self,
  exists f,
    run_sets calls self
    = (Returned tt,
       mkApp
         (fold_left
            (fun ev c => dict_set (set_date c) (DateData (set_choice c) (set_note c)) ev)
            calls (events self))
         f).
Proof.
  induction calls as [|c r IH]; intros [ev f].
  - exists f. reflexivity.
  - unfold run_sets in *. cbn [for_each]. unfold bind.
    rewrite save_and_close_eq, _save_events_eq. cbn [events _data_file].
    match goal with
    | |- context [for_each r ?body ?st] => destruct (IH st) as (f' & ->)
    end.
    exists f'. reflexivity.
Qed.

Lemma fold_set_get (k : DateKey) (calls : list set_call) :
  forall ev,
    dict_get k
      (fold_left
         (fun ev c => dict_set (set_date c) (DateData (set_choice c) (set_note c)) ev)
         calls ev)
    = match last_set k calls with
      | Some v => Some v
      | None => dict_get k ev
      end.
Proof.
  induction calls as [|c r IH]; intros ev; [reflexivity|].
  cbn [fold_left last_set]. rewrite IH.
  destruct (last_set k r); [reflexivity|].
  change (date_eqb (set_date c) k) with (key_eqb (set_date c) k).
  destruct (key_eq_dec (set_date c) k) as [E | Hne].
  - rewrite E, key_eqb_refl. apply dict_get_set_same.
  - rewrite key_eqb_neq by assumption. now apply dict_get_set_other.
Qed.

Lemma fold_set_ok (calls : list set_call) :
  forall ev,
    Forall (fun c => date_nonneg (set_date c)) calls -> store_ok ev ->
    store_ok
      (fold_left
         (fun ev c => dict_set (set_date c) (DateData (set_choice c) (set_note c)) ev)
         calls ev).
Proof.
  induction calls as [|c r IH]; intros ev Hall Hok; [assumption|].
  inversion Hall as [|? ? Hc Hr]; subst. cbn [fold_left]. apply IH; [assumption|].
  destruct Hok as [Hwf Hnn].
  split; [now apply dict_wf_set | now apply dict_keys_set_all].
Qed.

Lemma last_set_in (k : DateKey) (calls : list set_call) :
  In k (map set_date calls) ->
  exists c, In c calls /\ set_date c = k /\
            last_set k calls = Some (DateData (set_choice c) (set_note c)).
Proof.
  induction calls as [|c r IH]; simpl; [tauto|].
  intros Hin. destruct (in_dec key_eq_dec k (map set_date r)) as [Hr | Hr].
  - destruct (IH Hr) as (c' & Hc' & Hk & ->). exists c'. auto.
  - destruct Hin as [E | Hin]; [|contradiction].
    destruct (last_set k r) as [v|] eqn:Hl.
    + exfalso. apply Hr. clear IH. revert v Hl.
      induction r as [|c' r' IHr]; simpl; [discriminate|].
      intros v. destruct (last_set k r') eqn:Hl'.
      * intros _. right. eapply IHr; [|reflexivity].
        intros Hin'. apply Hr. now right.
      * destruct (date_eqb (set_date c') k) eqn:Ec; [|discriminate].
        apply (key_eqb_eq (K := DateKey)) in Ec. intros _. now left.
    + exists c. rewrite E. change (date_eqb k k) with (key_eqb k k).
      rewrite key_eqb_refl. auto.
Qed.

(** ** The persistence properties *)

(** C1, as amended: for every sequence of [set] calls on dates without
    negative component (choice and note arbitrary strings), made on a store
    of a running program, followed by a save whose write succeeds and a load
    into a new store, [get] returns for every date that was set the
    [{choice, note}] record of its last [set], which is the record the old
    store held. *)
Theorem round_trip (start : CalendarApp) (calls : list set_call) (k : DateKey) :
  store_ok (events start) ->
  Forall (fun c => date_nonneg (set_date c)) calls ->
  In k (map set_date calls) ->
  exists c,
    In c calls /\ set_date c = k /\
    last_set k calls = Some (DateData (set_choice c) (set_note c)) /\
    get (snd (run_sets calls start)) k = last_set k calls /\
    get (reopen (snd (run_sets calls start))) k = last_set k calls.
Proof.
  intros Hok Hall Hin.
  destruct (last_set_in k calls Hin) as (c & Hc & Hk & Hlast).
  exists c. repeat split; try assumption.
  - destruct (run_sets_eq calls start) as (f & ->).
    unfold get. cbn [snd events]. rewrite fold_set_get, Hlast. reflexivity.
  - destruct (run_sets_eq calls start) as (f & ->). cbn [snd].
    rewrite reopen_get by (cbn [events]; now apply fold_set_ok).
    unfold get. cbn [events]. rewrite fold_set_get, Hlast. reflexivity.
Qed.

Lemma round_trip_witness :
  let start := mkApp [] FileMissing in
  let calls :=
    [mkSet (2024, 3, 7) "Turtle" EmptyString WriteOk;
     mkSet (2024, 3, 8) EmptyString "café" (WriteFails OSError FileMissing);
     mkSet (2024, 3, 7) "Mint Cookie" "again" WriteOk] in
  store_ok (events start) /\
  Forall (fun c => date_nonneg (set_date c)) calls /\
  In (2024, 3, 7) (map set_date calls) /\
  exists c,
    In c calls /\ set_date c = (2024, 3, 7) /\
    last_set (2024, 3, 7) calls = Some (DateData (set_choice c) (set_note c)) /\
    get (snd (run_sets calls start)) (2024, 3, 7) = last_set (2024, 3, 7) calls /\
    get (reopen (snd (run_sets calls start))) (2024, 3, 7)
    = last_set (2024, 3, 7) calls.
Proof.
  cbv zeta.
  assert (H1 : store_ok (events (mkApp [] FileMissing)))
    by (split; constructor).
  assert (H2 : Forall (fun c => date_nonneg (set_date c))
                 [mkSet (2024, 3, 7) "Turtle" EmptyString WriteOk;
                  mkSet (2024, 3, 8) EmptyString "café"
                    (WriteFails OSError FileMissing);
                  mkSet (2024, 3, 7) "Mint Cookie" "again" WriteOk])
    by (repeat constructor; simpl; lia).
  assert (H3 : In (2024, 3, 7)
                 (map set_date
                    [mkSet (2024, 3, 7) "Turtle" EmptyString WriteOk;
                     mkSet (2024, 3, 8) EmptyString "café"
                       (WriteFails OSError FileMissing);
                     mkSet (2024, 3, 7) "Mint Cookie" "again" WriteOk]))
    by (simpl; auto).
  split; [exact H1 | split; [exact H2 | split; [exact H3 |]]].
  exact (round_trip _ _ _ H1 H2 H3).
Defined.

(** C1, as stated, fails: a date with a negative year is set and saved, and
    the new store does not have it. *)
Lemma round_trip_negative_year :
  let start := mkApp [] FileMissing in
  let calls := [mkSet (-1, 1, 1) "X" EmptyString WriteOk] in
  In (-1, 1, 1) (map set_date calls) /\
  get (snd (run_sets calls start)) (-1, 1, 1) = Some (DateData "X" EmptyString) /\
  get (reopen (snd (run_sets calls start))) (-1, 1, 1) = None.
Proof. cbv zeta. split; [simpl; auto | split; reflexivity]. Qed.

(** C7, as amended: for every integer triple without negative component,
    a real calendar date or not, [set] succeeds, the entry is stored under
    that triple as-is, and it comes back after a save and a load; no
    operation of the store asks the calendar. *)
Theorem unknown_date_tolerance (self : CalendarApp) (key : DateKey)
    (choice note : string) (w : disk_reply) :
  store_ok (events self) ->
  date_nonneg key ->
  fst (save_and_close key choice note w self) = Returned tt /\
  get (snd (save_and_close key choice note w self)) key
  = Some (DateData choice note) /\
  get (reopen (snd (save_and_close key choice note w self))) key
  = Some (DateData choice note).
Proof.
  intros Hok Hkey.
  pose proof (save_and_close_ok key choice note w self Hkey Hok) as Hok'.
  rewrite reopen_get by assumption.
  rewrite save_and_close_eq, _save_events_eq. unfold get. cbn [fst snd events].
  rewrite dict_get_set_same. auto.
Qed.

Lemma unknown_date_tolerance_witness :
  real_calendar_date (2023, 2, 30) = false /\
  store_ok (events (mkApp [] FileMissing)) /\
  date_nonneg (2023, 2, 30) /\
  fst (save_and_close (2023, 2, 30) "X" EmptyString WriteOk (mkApp [] FileMissing))
  = Returned tt /\
  get (snd (save_and_close (2023, 2, 30) "X" EmptyString WriteOk
              (mkApp [] FileMissing))) (2023, 2, 30)
  = Some (DateData "X" EmptyString) /\
  get (reopen (snd (save_and_close (2023, 2, 30) "X" EmptyString WriteOk
                      (mkApp [] FileMissing)))) (2023, 2, 30)
  = Some (DateData "X" EmptyString).
Proof.
  assert (H1 : store_ok (events (mkApp [] FileMissing))) by (split; constructor).
  assert (H2 : date_nonneg (2023, 2, 30)) by (simpl; lia).
  split; [reflexivity | split; [exact H1 | split; [exact H2 |]]].
  exact (unknown_date_tolerance (mkApp [] FileMissing) (2023, 2, 30) "X"
           EmptyString WriteOk H1 H2).
Defined.

(** C7, as stated, fails: the triple (-2023, 2, 30) is no calendar date,
    [set] stores it, and it does not come back after a save and a load. *)
Lemma unknown_date_negative_year :
  real_calendar_date (-2023, 2, 30) = false /\
  get (snd (save_and_close (-2023, 2, 30) "X" EmptyString WriteOk
              (mkApp [] FileMissing))) (-2023, 2, 30)
  = Some (DateData "X" EmptyString) /\
  get (reopen (snd (save_and_close (-2023, 2, 30) "X" EmptyString WriteOk
                      (mkApp [] FileMissing)))) (-2023, 2, 30)
  = None.
Proof. repeat split; reflexivity. Qed.

(** C2: the file of the failing input is a dictionary whose second key
    does not unpack; [_load_events] does not raise, and the store keeps the
    entry that came before the malformed one. *)
Theorem load_keeps_entries_before_malformed :
  let file :=
    FileHolds (PDict [("2024-1-1", PStr "X"); ("bad", PStr "Y")]) in
  CalendarApp_init file
  = (Returned tt, mkApp [((2024, 1, 1), DateData "X" EmptyString)] file).
Proof. reflexivity. Qed.

(** [_load_events] returns whatever the file is. *)
Lemma _load_events_returns (self : CalendarApp) :
  fst (_load_events self) = Returned tt.
Proof. now rewrite _load_events_eq. Qed.

(** A file that cannot be read or parsed, or whose document is not a
    dictionary, or whose first key does not unpack, leaves the store as it
    was. *)
Lemma load_unreadable (ev : pydict DateKey pyval) (e : exn) :
  events (snd (_load_events (mkApp ev (FileRaises e)))) = ev.
Proof. reflexivity. Qed.

Lemma load_not_a_dict (ev : pydict DateKey pyval) (v : pyval) :
  (forall entries, v <> PDict entries) ->
  events (snd (_load_events (mkApp ev (FileHolds v)))) = ev.
Proof.
  intros Hv. rewrite _load_events_eq. cbn [snd events _data_file loaded].
  destruct v; try reflexivity. now destruct (Hv entries).
Qed.

Lemma load_first_key_malformed (ev : pydict DateKey pyval) (iso_str : string)
    (value : pyval) (rest : list (string * pyval)) :
  parse_date iso_str = None ->
  events (snd (_load_events (mkApp ev (FileHolds (PDict ((iso_str, value) :: rest))))))
  = ev.
Proof.
  intros Hs. rewrite _load_events_eq. cbn [snd events _data_file loaded load_loop].
  now rewrite Hs.
Qed.

(** In general the store keeps what the entries before the first malformed
    key put into it, and nothing of what follows. *)
Lemma load_stops_at_malformed (ev : pydict DateKey pyval)
    (pre post : list (string * pyval)) (iso_str : string) (value : pyval) :
  Forall (fun e => parse_date (fst e) <> None) pre ->
  parse_date iso_str = None ->
  events (snd (_load_events
                 (mkApp ev (FileHolds (PDict (pre ++ (iso_str, value) :: post))))))
  = load_loop pre ev.
Proof.
  intros Hpre Hs. rewrite _load_events_eq. cbn [snd events _data_file loaded].
  rewrite load_loop_app by assumption. cbn [load_loop]. now rewrite Hs.
Qed.

(** The entry of a file that follows entries with readable keys and is not
    overwritten by a later one is stored as [loaded_value] of its value. *)
Lemma load_entry_of_file (ev : pydict DateKey pyval)
    (pre post : list (string * pyval)) (iso_str : string) (value : pyval)
    (k : DateKey) :
  Forall (fun e => parse_date (fst e) <> None) pre ->
  parse_date iso_str = Some k ->
  Forall (fun e => parse_date (fst e) <> Some k) post ->
  get (snd (_load_events
              (mkApp ev (FileHolds (PDict (pre ++ (iso_str, value) :: post)))))) k
  = Some (loaded_value value).
Proof.
  intros Hpre Hk Hpost. rewrite _load_events_eq. unfold get.
  cbn [snd events _data_file loaded].
  rewrite load_loop_app by assumption. cbn [load_loop]. rewrite Hk.
  rewrite load_loop_get_other by assumption. apply dict_get_set_same.
Qed.

(** C3, as amended: an entry whose value is a bare string [s], in a file
    all of whose keys unpack to dates (none with more than 4300 digits) and
    in which no later entry is for the same date, is accepted by
    [_load_events], and [get] of its date returns the record with choice
    [s] and an empty note. *)
Theorem legacy_upgrade (ev : pydict DateKey pyval)
    (pre post : list (string * pyval)) (iso_str s : string) (k : DateKey) :
  Forall (fun e => readable_key (fst e)) (pre ++ (iso_str, PStr s) :: post) ->
  parse_date iso_str = Some k ->
  Forall (fun e => parse_date (fst e) <> Some k) post ->
  let file := FileHolds (PDict (pre ++ (iso_str, PStr s) :: post)) in
  fst (_load_events (mkApp ev file)) = Returned tt /\
  get (snd (_load_events (mkApp ev file))) k = Some (DateData s EmptyString).
Proof.
  intros Hall Hk Hpost file. split; [apply _load_events_returns|].
  apply (load_entry_of_file ev pre post iso_str (PStr s) k); try assumption.
  apply Forall_app in Hall as [Hpre _].
  revert Hpre. apply Forall_impl. intros e [_ He]. exact He.
Qed.

Lemma legacy_upgrade_witness :
  let pre := [("2024-3-7", DateData "Turtle" "note")] in
  let post := [("2024-3-9", PStr "Mint Cookie")] in
  Forall (fun e => readable_key (fst e)) (pre ++ ("2024-3-8", PStr "X") :: post) /\
  parse_date "2024-3-8" = Some (2024, 3, 8) /\
  Forall (fun e => parse_date (fst e) <> Some (2024, 3, 8)) post /\
  fst (CalendarApp_init (FileHolds (PDict (pre ++ ("2024-3-8", PStr "X") :: post))))
  = Returned tt /\
  get (snd (CalendarApp_init
              (FileHolds (PDict (pre ++ ("2024-3-8", PStr "X") :: post)))))
    (2024, 3, 8)
  = Some (DateData "X" EmptyString).
Proof.
  cbv zeta.
  assert (H1 : Forall (fun e => readable_key (fst e))
                 ([("2024-3-7", DateData "Turtle" "note")]
                  ++ ("2024-3-8", PStr "X") :: [("2024-3-9", PStr "Mint Cookie")])).
  { repeat constructor; try discriminate;
      unfold within_digit_limit; simpl; lia. }
  assert (H2 : parse_date "2024-3-8" = Some (2024, 3, 8)) by reflexivity.
  assert (H3 : Forall (fun e => parse_date (fst e) <> Some (2024, 3, 8))
                 [("2024-3-9", PStr "Mint Cookie")])
    by (repeat constructor; discriminate).
  split; [exact H1 | split; [exact H2 | split; [exact H3 |]]].
  exact (legacy_upgrade [] _ _ "2024-3-8" "X" (2024, 3, 8) H1 H2 H3).
Defined.

(** C3, as stated, fails: a bare string behind a key that does not unpack
    is never reached, and a bare string followed by another entry for the
    same date is overwritten. *)
Lemma legacy_entry_not_loaded :
  parse_date "2024-1-1" = Some (2024, 1, 1) /\
  get (snd (CalendarApp_init
              (FileHolds (PDict [("bad", PStr "Y"); ("2024-1-1", PStr "X")]))))
    (2024, 1, 1)
  = None /\
  parse_date "2024-01-1" = Some (2024, 1, 1) /\
  get (snd (CalendarApp_init
              (FileHolds (PDict [("2024-1-1", PStr "X"); ("2024-01-1", PStr "Y")]))))
    (2024, 1, 1)
  = Some (DateData "Y" EmptyString).
Proof. repeat split; reflexivity. Qed.

(** C9, as amended: only a bare string is normalized by [_load_events];
    any other value of an entry, in a file all of whose keys unpack to
    dates (none with more than 4300 digits) and in which no later entry is
    for the same date, is stored unchanged, so that [get] returns it
    whatever its shape. *)
Theorem load_stores_verbatim (ev : pydict DateKey pyval)
    (pre post : list (string * pyval)) (iso_str : string) (value : pyval)
    (k : DateKey) :
  (forall s, value <> PStr s) ->
  Forall (fun e => readable_key (fst e)) (pre ++ (iso_str, value) :: post) ->
  parse_date iso_str = Some k ->
  Forall (fun e => parse_date (fst e) <> Some k) post ->
  get (snd (_load_events
              (mkApp ev (FileHolds (PDict (pre ++ (iso_str, value) :: post)))))) k
  = Some value.
Proof.
  intros Hv Hall Hk Hpost.
  rewrite (load_entry_of_file ev pre post iso_str value k); try assumption.
  - destruct value; try reflexivity. now destruct (Hv s).
  - apply Forall_app in Hall as [Hpre _].
    revert Hpre. apply Forall_impl. intros e [_ He]. exact He.
Qed.

Lemma load_stores_verbatim_witness :
  let pre := [("2024-3-7", PInt 5)] in
  let post := [("2024-3-9", PList [PStr "a"; PNone])] in
  let value := PDict [("choice", PStr "Turtle")] in
  (forall s, value <> PStr s) /\
  Forall (fun e => readable_key (fst e)) (pre ++ ("2024-3-8", value) :: post) /\
  parse_date "2024-3-8" = Some (2024, 3, 8) /\
  Forall (fun e => parse_date (fst e) <> Some (2024, 3, 8)) post /\
  get (snd (CalendarApp_init
              (FileHolds (PDict (pre ++ ("2024-3-8", value) :: post)))))
    (2024, 3, 8)
  = Some value.
Proof.
  cbv zeta.
  assert (H0 : forall s, PDict [("choice", PStr "Turtle")] <> PStr s)
    by (intros s; discriminate).
  assert (H1 : Forall (fun e => readable_key (fst e))
                 ([("2024-3-7", PInt 5)]
                  ++ ("2024-3-8", PDict [("choice", PStr "Turtle")])
                     :: [("2024-3-9", PList [PStr "a"; PNone])])).
  { repeat constructor; try discriminate;
      unfold within_digit_limit; simpl; lia. }
  assert (H2 : parse_date "2024-3-8" = Some (2024, 3, 8)) by reflexivity.
  assert (H3 : Forall (fun e => parse_date (fst e) <> Some (2024, 3, 8))
                 [("2024-3-9", PList [PStr "a"; PNone])])
    by (repeat constructor; discriminate).
  split; [exact H0 | split; [exact H1 | split; [exact H2 | split; [exact H3 |]]]].
  exact (load_stores_verbatim [] _ _ "2024-3-8" _ (2024, 3, 8) H0 H1 H2 H3).
Defined.

(** C9, as stated, fails: a number behind a key that does not unpack is
    not inserted, and a number followed by another entry for the same date
    does not come out of [get]. *)
Lemma parsed_value_not_inserted :
  parse_date "2024-1-1" = Some (2024, 1, 1) /\
  events (snd (CalendarApp_init
                 (FileHolds (PDict [("bad", PInt 7); ("2024-1-1", PInt 5)]))))
  = [] /\
  parse_date "2024-01-1" = Some (2024, 1, 1) /\
  get (snd (CalendarApp_init
              (FileHolds (PDict [("2024-1-1", PInt 5); ("2024-01-1", PInt 6)]))))
    (2024, 1, 1)
  = Some (PInt 6).
Proof. repeat split; reflexivity. Qed.

(** A number and a list come out of [get] as they were in the file. *)
Example get_returns_number_and_list :
  let self :=
    snd (CalendarApp_init
           (FileHolds (PDict [("2024-3-7", PInt 5);
                              ("2024-3-9", PList [PStr "a"; PNone])]))) in
  get self (2024, 3, 7) = Some (PInt 5) /\
  get self (2024, 3, 9) = Some (PList [PStr "a"; PNone]).
Proof. split; reflexivity. Qed.

(** C4: for every store and every target year and month, the confirmed
    [clear_month] returns, removes exactly the entries whose key has that
    year and that month, leaves every other entry as it was (same key, same
    record, same place), and after a save and a load into a new store no
    date of that year and month is there. *)
Theorem bulk_delete_scoping (self : CalendarApp) (year month_index : Z)
    (w : disk_reply) :
  dict_wf (events self) ->
  let result := clear_month year month_index true w self in
  fst result = Returned tt /\
  events (snd result)
  = filter (fun kv => negb (in_month year month_index (fst kv))) (events self) /\
  (forall k,
      get (snd result) k
      = if in_month year month_index k then None else get self k) /\
  (forall k,
      in_month year month_index k = true -> get (reopen (snd result)) k = None).
Proof.
  intros Hwf result. subst result. rewrite clear_month_eq by assumption.
  rewrite _save_events_eq. cbn [fst snd events].
  split; [reflexivity | split; [reflexivity | split]].
  - intros k. unfold get. cbn [events].
    rewrite (dict_get_filter (fun k => negb (in_month year month_index k))).
    now destruct (in_month year month_index k).
  - intros k Hk. unfold reopen, CalendarApp_init, get.
    rewrite _save_events_eq, _load_events_eq.
    cbn [snd events _data_file loaded].
    rewrite saved_document by now apply dict_wf_filter.
    rewrite load_loop_get_other; [reflexivity|].
    apply Forall_forall. intros e He.
    apply in_map_iff in He as ([k' v'] & <- & Hin).
    apply filter_In in Hin as [_ Hout]. cbn [fst] in *.
    destruct (date_nonneg_dec k') as [Hnn | Hneg].
    + rewrite parse_date_key_str by assumption.
      intros E; injection E as ->. rewrite Hk in Hout. discriminate.
    + rewrite parse_date_key_str_negative by assumption. discriminate.
Qed.

Lemma bulk_delete_scoping_witness :
  let self :=
    mkApp [((2024, 3, 7), DateData "Turtle" EmptyString);
           ((2024, 4, 7), DateData "Mint Cookie" "n");
           ((2024, 3, 9), DateData "Georgia Peach" EmptyString);
           ((2023, 3, 7), DateData "Caramel Cashew" EmptyString)] FileMissing in
  dict_wf (events self) /\
  events (snd (clear_month 2024 3 true WriteOk self))
  = [((2024, 4, 7), DateData "Mint Cookie" "n");
     ((2023, 3, 7), DateData "Caramel Cashew" EmptyString)] /\
  get (reopen (snd (clear_month 2024 3 true WriteOk self))) (2024, 3, 9) = None.
Proof.
  cbv zeta.
  assert (H1 : dict_wf
                 (events
                    (mkApp [((2024, 3, 7), DateData "Turtle" EmptyString);
                            ((2024, 4, 7), DateData "Mint Cookie" "n");
                            ((2024, 3, 9), DateData "Georgia Peach" EmptyString);
                            ((2023, 3, 7), DateData "Caramel Cashew" EmptyString)]
                       FileMissing))).
  { unfold dict_wf. simpl. repeat constructor; simpl; intuition discriminate. }
  split; [exact H1|].
  pose proof (bulk_delete_scoping _ 2024 3 WriteOk H1) as (_ & Hev & _ & Hre).
  split; [exact Hev | exact (Hre (2024, 3, 9) eq_refl)].
Defined.

(** Without the confirmation nothing is removed and nothing is written. *)
Lemma clear_month_declined (self : CalendarApp) (year month_index : Z)
    (w : disk_reply) :
  clear_month year month_index false w self = (Returned tt, self).
Proof. reflexivity. Qed.

(** After a confirmed [clear_month] on a running program's store, a save
    and a load bring back every other entry. *)
Lemma clear_month_round_trip (self : CalendarApp) (year month_index : Z)
    (w : disk_reply) (k : DateKey) :
  store_ok (events self) ->
  get (reopen (snd (clear_month year month_index true w self))) k
  = if in_month year month_index k then None
    else option_map loaded_value (get self k).
Proof.
  intros [Hwf Hnn]. rewrite clear_month_eq, _save_events_eq by assumption.
  cbn [snd]. rewrite reopen_get; cbn [events].
  - unfold get. cbn [events].
    rewrite (dict_get_filter (fun k => negb (in_month year month_index k))).
    now destruct (in_month year month_index k).
  - split; [now apply dict_wf_filter|].
    unfold dict_keys in *. rewrite Forall_forall in *. intros x Hx.
    apply in_map_iff in Hx as (kv & <- & Hin). apply filter_In in Hin as [Hin _].
    apply Hnn. now apply in_map.
Qed.

(** C5: whatever the store and whatever the failure of the write,
    [_save_events] returns without raising and the map in memory is the one
    it was. *)
Theorem save_failure_contained (self : CalendarApp) (e : exn)
    (left_behind : file_state) :
  fst (_save_events (WriteFails e left_behind) self) = Returned tt /\
  events (snd (_save_events (WriteFails e left_behind) self)) = events self /\
  (forall k, get (snd (_save_events (WriteFails e left_behind) self)) k
             = get self k).
Proof. repeat split. Qed.

(** C6: with the file missing [_load_events] returns without raising and
    leaves the store as it was: empty, in a new application object. *)
Theorem missing_file_tolerance (ev : pydict DateKey pyval) :
  _load_events (mkApp ev FileMissing) = (Returned tt, mkApp ev FileMissing) /\
  CalendarApp_init FileMissing = (Returned tt, mkApp [] FileMissing).
Proof. split; reflexivity. Qed.

(** *** The key format *)

Lemma numeral_digits_loop (s : string) (n : Z) :
  numeral s n ->
  forall fuel acc, n < 2 ^ Z.of_nat fuel ->
    PyStr.digits_loop fuel n acc = s ++ acc.
Proof.
  induction 1 as [d Hd | s n d Hnum IH Hd]; intros fuel acc Hlt.
  - destruct fuel as [|f]; [change (2 ^ Z.of_nat 0) with 1 in Hlt; lia|].
    cbn [PyStr.digits_loop].
    rewrite Z.div_small, Z.mod_small by lia. reflexivity.
  - pose proof (numeral_pos s n Hnum) as Hpos.
    destruct fuel as [|f]; [change (2 ^ Z.of_nat 0) with 1 in Hlt; lia|].
    cbn [PyStr.digits_loop].
    assert (Hq : (10 * n + d) / 10 = n).
    { rewrite Z.mul_comm, Z.div_add_l by lia. rewrite Z.div_small; lia. }
    assert (Hr : (10 * n + d) mod 10 = d).
    { rewrite Z.add_comm, Z.mul_comm, Z.mod_add by lia. apply Z.mod_small; lia. }
    rewrite Hq, Hr. destruct (Z.eqb_spec n 0) as [E | _]; [lia|].
    rewrite IH.
    + now rewrite append_assoc.
    + rewrite Nat2Z.inj_succ, Z.pow_succ_r in Hlt by lia. lia.
Qed.

(** [decimal_of] describes one string, the one [str] writes. *)
Lemma decimal_of_unique (z : Z) (s : string) :
  decimal_of z s -> s = PyStr.str_int z.
Proof.
  assert (Hnum : forall s n, numeral s n -> s = PyStr.str_nonneg n).
  { intros s0 n Hn. unfold PyStr.str_nonneg, PyStr.digits_fuel.
    rewrite (numeral_digits_loop s0 n Hn).
    - clear. induction s0 as [|c s0 IH]; simpl; [reflexivity | now rewrite <- IH].
    - pose proof (numeral_pos s0 n Hn) as Hpos.
      rewrite Nat2Z.inj_succ, Z2Nat.id by apply Z.log2_nonneg.
      pose proof (Z.log2_spec n Hpos). lia. }
  intros [ | s0 n Hn | s0 n Hn].
  - reflexivity.
  - pose proof (numeral_pos s0 n Hn). unfold PyStr.str_int.
    destruct (Z.ltb_spec n 0); [lia | now apply Hnum].
  - pose proof (numeral_pos s0 n Hn). unfold PyStr.str_int.
    destruct (Z.ltb_spec (- n) 0); [|lia].
    rewrite Z.opp_involutive. f_equal. now apply Hnum.
Qed.

Lemma date_key_str_composite (k : DateKey) : composite_key k (date_key_str k).
Proof.
  destruct k as [[y m] d]. unfold composite_key, date_key_str.
  exists (PyStr.str_int y), (PyStr.str_int m), (PyStr.str_int d).
  repeat split; apply str_int_decimal.
Qed.

Example date_key_str_2024_3_7 : date_key_str (2024, 3, 7) = "2024-3-7".
Proof. reflexivity. Qed.

(** C8: for every entry of the store, [_save_events] writes the entry's
    value under the key ["{year}-{month}-{day}"], each component in its
    decimal digits without zero-padding; the document has these items and no
    others, in the order of the store. *)
Theorem serialized_key_format (self : CalendarApp) :
  dict_wf (events self) ->
  exists data,
    _save_events WriteOk self
    = (Returned tt, mkApp (events self) (FileHolds (PDict data))) /\
    Forall2
      (fun entry item =>
         composite_key (fst entry) (fst item) /\ snd item = snd entry)
      (events self) data.
Proof.
  intros Hwf. exists (dict_comprehension date_key_str (events self)).
  split; [apply _save_events_eq|].
  rewrite saved_document by assumption. clear Hwf.
  induction (events self) as [|[k v] r IH]; simpl; constructor.
  - split; [apply date_key_str_composite | reflexivity].
  - exact IH.
Qed.

Lemma serialized_key_format_witness :
  let self :=
    mkApp [((2024, 3, 7), DateData "Turtle" EmptyString);
           ((2024, 12, 25), DateData "Mint Cookie" "n")] FileMissing in
  dict_wf (events self) /\
  exists data,
    _save_events WriteOk self
    = (Returned tt, mkApp (events self) (FileHolds (PDict data))) /\
    Forall2
      (fun entry item =>
         composite_key (fst entry) (fst item) /\ snd item = snd entry)
      (events self) data.
Proof.
  cbv zeta.
  assert (H1 : dict_wf
                 (events
                    (mkApp [((2024, 3, 7), DateData "Turtle" EmptyString);
                            ((2024, 12, 25), DateData "Mint Cookie" "n")]
                       FileMissing))).
  { unfold dict_wf. simpl. repeat constructor; simpl; intuition discriminate. }
  split; [exact H1 | exact (serialized_key_format _ H1)].
Defined.

Example saved_document_2024_3_7 :
  _data_file
    (snd (_save_events WriteOk
            (mkApp [((2024, 3, 7), DateData "Turtle" EmptyString)] FileMissing)))
  = FileHolds (PDict [("2024-3-7", DateData "Turtle" EmptyString)]).
Proof. reflexivity. Qed.

(** C10: [_load_events] removes nothing: an entry of the store is still
    there afterwards, and when no entry of the file is for its date it has
    the record it had. *)
Theorem load_merges (self : CalendarApp) (k : DateKey) (v : pyval) :
  get self k = Some v ->
  exists v',
    get (snd (_load_events self)) k = Some v' /\
    (absent_from_file k (_data_file self) -> v' = v).
Proof.
  intros Hget. rewrite _load_events_eq. unfold get in *. cbn [snd events].
  destruct (_data_file self) as [|e|doc] eqn:Hf; cbn [loaded].
  1, 2: exists v; auto.
  destruct doc; try (exists v; split; [assumption | reflexivity]).
  destruct (dict_get k (load_loop entries (events self))) as [v'|] eqn:Hl.
  - exists v'. split; [reflexivity|]. intros Habs.
    rewrite load_loop_get_other in Hl by (now apply Habs). congruence.
  - exfalso. revert Hl. apply load_loop_keeps_keys. congruence.
Qed.

Lemma load_merges_witness :
  let self :=
    mkApp [((2024, 3, 7), DateData "Turtle" EmptyString);
           ((2024, 3, 8), DateData "Mint Cookie" EmptyString)]
      (FileHolds (PDict [("2024-3-8", PStr "Georgia Peach");
                         ("2024-3-9", PStr "Caramel Cashew")])) in
  get self (2024, 3, 7) = Some (DateData "Turtle" EmptyString) /\
  absent_from_file (2024, 3, 7) (_data_file self) /\
  get (snd (_load_events self)) (2024, 3, 7)
  = Some (DateData "Turtle" EmptyString) /\
  get (snd (_load_events self)) (2024, 3, 8)
  = Some (DateData "Georgia Peach" EmptyString).
Proof.
  cbv zeta.
  split; [reflexivity|].
  assert (Habs : absent_from_file (2024, 3, 7)
                   (FileHolds (PDict [("2024-3-8", PStr "Georgia Peach");
                                      ("2024-3-9", PStr "Caramel Cashew")]))).
  { intros entries E. injection E as <-. repeat constructor; discriminate. }
  split; [exact Habs|].
  split; [|reflexivity].
  destruct (load_merges
              (mkApp [((2024, 3, 7), DateData "Turtle" EmptyString);
                      ((2024, 3, 8), DateData "Mint Cookie" EmptyString)]
                 (FileHolds (PDict [("2024-3-8", PStr "Georgia Peach");
                                    ("2024-3-9", PStr "Caramel Cashew")])))
              (2024, 3, 7) (DateData "Turtle" EmptyString) eq_refl)
    as (v' & Hv' & Hsame).
  rewrite Hv'. f_equal. exact (Hsame Habs).
Defined.

(** ** Further properties of the store *)

Lemma dict_set_set {K V : Type} `{PyKeyLaws K} (k : K) (v1 v2 : V) (d : pydict K V) :
  dict_set k v2 (dict_set k v1 d) = dict_set k v2 d.
Proof.
  induction d as [|[k' v'] r IH]; simpl.
  - now rewrite key_eqb_refl.
  - destruct (key_eqb k' k) eqn:E; simpl; rewrite E; [reflexivity | now rewrite IH].
Qed.

Lemma dict_set_unchanged {K V : Type} `{PyKeyLaws K} (k : K) (v : V) (d : pydict K V) :
  dict_get k d = Some v -> dict_set k v d = d.
Proof.
  induction d as [|[k' v'] r IH]; simpl; [discriminate|].
  destruct (key_eqb k' k) eqn:E.
  - intros E'. injection E' as ->. reflexivity.
  - intros Hr. now rewrite IH.
Qed.

(** X1: a second [set] for a date makes the first unobservable: the store
    is the one the second call alone gives, with one record for the date. *)
Theorem set_twice_overwrites (self : CalendarApp) (key : DateKey)
    (choice1 note1 choice2 note2 : string) (w1 w2 : disk_reply) :
  let once := snd (save_and_close key choice1 note1 w1 self) in
  let twice := snd (save_and_close key choice2 note2 w2 once) in
  events twice = events (snd (save_and_close key choice2 note2 w2 self)) /\
  get twice key = Some (DateData choice2 note2) /\
  dict_keys (events twice) = dict_keys (events once).
Proof.
  cbv zeta. rewrite !save_and_close_eq, !_save_events_eq. unfold get.
  cbn [snd events _data_file]. rewrite dict_set_set, dict_get_set_same.
  repeat split. rewrite <- (dict_set_set key (DateData choice1 note1)).
  apply dict_keys_set_present.
  destruct (in_dec key_eq_dec key
              (dict_keys (dict_set key (DateData choice1 note1) (events self))))
    as [Hin | Hn]; [assumption|].
  apply dict_get_none in Hn. rewrite dict_get_set_same in Hn. discriminate.
Qed.

(** X2: the store update of the Save callback, whatever the disk answers
    to its write, changes the record of its date only, keeps the place of a
    date the store has and puts a new date last. *)
Theorem set_changes_one_date (self : CalendarApp) (key : DateKey)
    (choice note : string) (w : disk_reply) :
  let after := snd (save_and_close key choice note w self) in
  (forall k, get after k
             = if date_eqb key k then Some (DateData choice note) else get self k) /\
  dict_keys (events after)
  = match get self key with
    | Some _ => dict_keys (events self)
    | None => (dict_keys (events self) ++ [key])%list
    end.
Proof.
  cbv zeta. rewrite save_and_close_eq, _save_events_eq. unfold get.
  cbn [fst snd events]. split.
  - intros k. change (date_eqb key k) with (key_eqb key k).
    destruct (key_eq_dec key k) as [-> | Hne].
    + rewrite key_eqb_refl. apply dict_get_set_same.
    + rewrite key_eqb_neq by assumption. now apply dict_get_set_other.
  - rewrite dict_keys_set.
    destruct (in_dec key_eq_dec key (dict_keys (events self))) as [Hin | Hn].
    + destruct (dict_get key (events self)) eqn:E; [reflexivity|].
      apply dict_get_none in E. contradiction.
    + apply dict_get_none in Hn. now rewrite Hn.
Qed.

(** X3: a key written by [_save_events] is read back by [_load_events] as
    the date it was written for exactly when the date has no negative
    component; otherwise it does not unpack at all. *)
Theorem key_round_trip_exact (k : DateKey) :
  (date_nonneg k -> parse_date (date_key_str k) = Some k) /\
  (~ date_nonneg k -> parse_date (date_key_str k) = None) /\
  (parse_date (date_key_str k) = Some k <-> date_nonneg k).
Proof.
  split; [apply parse_date_key_str | split; [apply parse_date_key_str_negative|]].
  split.
  - apply parse_date_nonneg.
  - apply parse_date_key_str.
Qed.

(** X4: two different dates never get the same file key, negative
    components included. *)
Theorem distinct_dates_distinct_keys (k1 k2 : DateKey) :
  k1 <> k2 -> date_key_str k1 <> date_key_str k2.
Proof. intros Hne E. apply Hne, date_key_str_inj, E. Qed.

Lemma distinct_dates_distinct_keys_witness :
  (1, -2, 3) <> (1, 2, -3) /\
  date_key_str (1, -2, 3) = "1--2-3" /\
  date_key_str (1, 2, -3) = "1-2--3" /\
  date_key_str (1, -2, 3) <> date_key_str (1, 2, -3).
Proof.
  assert (H : (1, -2, 3) <> (1, 2, -3)) by discriminate.
  split; [exact H | split; [reflexivity | split; [reflexivity|]]].
  exact (distinct_dates_distinct_keys (1, -2, 3) (1, 2, -3) H).
Defined.

Lemma py_int_digits (s : string) (n : Z) :
  s <> EmptyString -> digits_value s 0 = Some n -> PyStr.py_int s = Some n.
Proof.
  destruct s as [|c r]; [congruence|]. intros _ Hv. simpl in Hv.
  destruct (PyStr.digit_value c) as [d|] eqn:Hc; [|discriminate].
  destruct (digit_is_plain c d Hc) as (Hdash & _ & Hplus & Hsp).
  unfold PyStr.py_int. cbn [PyStr.lstrip]. rewrite Hsp.
  assert (Hpu : PyStr.parse_unsigned (String c r) = Some n).
  { simpl. rewrite Hc. apply scan_digits_value, Hv. }
  apply Ascii.eqb_neq in Hdash, Hplus.
  destruct c as [[] [] [] [] [] [] [] []]; try exact Hpu; congruence.
Qed.

(** X5: a key of three non-empty digit strings of at most 4300 digits
    each, joined by ["-"], unpacks to the numbers they denote, zero-padded
    or not: an ISO date such as ["2024-03-07"] is read as (2024, 3, 7). *)
Theorem padded_key_accepted (a b c : string) (y m d : Z) :
  a <> EmptyString -> b <> EmptyString -> c <> EmptyString ->
  within_digit_limit a -> within_digit_limit b -> within_digit_limit c ->
  digits_value a 0 = Some y -> digits_value b 0 = Some m ->
  digits_value c 0 = Some d ->
  parse_date (a ++ "-" ++ b ++ "-" ++ c) = Some (y, m, d).
Proof.
  intros Ha Hb Hc _ _ _ Hy Hm Hd. unfold parse_date. cbn [append].
  rewrite (split_digits_dash a _ 0 y Hy), (split_digits_dash b _ 0 m Hm),
    (split_digits c 0 d Hd).
  cbn [map]. rewrite (py_int_digits a y Ha Hy), (py_int_digits b m Hb Hm),
    (py_int_digits c d Hc Hd). reflexivity.
Qed.

Lemma padded_key_accepted_witness :
  "2024" <> EmptyString /\ "03" <> EmptyString /\ "07" <> EmptyString /\
  within_digit_limit "2024" /\ within_digit_limit "03" /\
  within_digit_limit "07" /\
  digits_value "2024" 0 = Some 2024 /\ digits_value "03" 0 = Some 3 /\
  digits_value "07" 0 = Some 7 /\
  parse_date "2024-03-07" = Some (2024, 3, 7).
Proof.
  assert (Ha : "2024" <> EmptyString) by discriminate.
  assert (Hb : "03" <> EmptyString) by discriminate.
  assert (Hc : "07" <> EmptyString) by discriminate.
  assert (La : within_digit_limit "2024") by (unfold within_digit_limit; simpl; lia).
  assert (Lb : within_digit_limit "03") by (unfold within_digit_limit; simpl; lia).
  assert (Lc : within_digit_limit "07") by (unfold within_digit_limit; simpl; lia).
  repeat (split; [first [assumption | reflexivity]|]).
  exact (padded_key_accepted "2024" "03" "07" 2024 3 7 Ha Hb Hc La Lb Lc
           eq_refl eq_refl eq_refl).
Defined.

Lemma load_loop_last_entry (k : DateKey) (entries : list (string * pyval)) :
  forall ev,
    dict_get k (load_loop entries ev)
    = match last_entry k (readable_prefix entries) with
      | Some v => Some (loaded_value v)
      | None => dict_get k ev
      end.
Proof.
  induction entries as [|[s v] r IH]; intros ev; [reflexivity|].
  cbn [load_loop readable_prefix].
  destruct (parse_date s) as [k'|] eqn:Hs; [|reflexivity].
  cbn [last_entry]. rewrite Hs, IH.
  destruct (last_entry k (readable_prefix r)); [reflexivity|].
  change (date_eqb k' k) with (key_eqb k' k).
  destruct (key_eq_dec k' k) as [-> | Hne].
  - rewrite key_eqb_refl. apply dict_get_set_same.
  - rewrite key_eqb_neq by assumption. now apply dict_get_set_other.
Qed.

(** X6: what [_load_events] makes of a file that holds a dictionary
    whose keys have at most 4300 digits: for every date, the value of the
    last entry for it among the entries before the first malformed key (a
    bare string turned into a record), and the old record of the store when
    there is no such entry. *)
Theorem load_last_entry_wins (ev : pydict DateKey pyval)
    (entries : list (string * pyval)) (k : DateKey) :
  Forall (fun e => within_digit_limit (fst e)) entries ->
  get (snd (_load_events (mkApp ev (FileHolds (PDict entries))))) k
  = match last_entry k (readable_prefix entries) with
    | Some v => Some (loaded_value v)
    | None => dict_get k ev
    end.
Proof.
  intros _. rewrite _load_events_eq. unfold get. cbn [snd events _data_file loaded].
  apply load_loop_last_entry.
Qed.

Lemma load_last_entry_wins_witness :
  let entries :=
    [("2024-3-7", PStr "Turtle"); ("2024-03-07", PStr "Mint Cookie");
     ("7 March", PStr "lost"); ("2024-3-7", PStr "never read")] in
  Forall (fun e => within_digit_limit (fst e)) entries /\
  readable_prefix entries
  = [("2024-3-7", PStr "Turtle"); ("2024-03-07", PStr "Mint Cookie")] /\
  get (snd (_load_events (mkApp [] (FileHolds (PDict entries))))) (2024, 3, 7)
  = Some (DateData "Mint Cookie" EmptyString).
Proof.
  cbv zeta.
  assert (H1 : Forall (fun e => within_digit_limit (fst e))
                 [("2024-3-7", PStr "Turtle"); ("2024-03-07", PStr "Mint Cookie");
                  ("7 March", PStr "lost"); ("2024-3-7", PStr "never read")]).
  { repeat constructor; unfold within_digit_limit; simpl; lia. }
  split; [exact H1 | split; [reflexivity|]].
  exact (load_last_entry_wins [] _ (2024, 3, 7) H1).
Defined.

Example load_padded_duplicate :
  let self :=
    snd (CalendarApp_init
           (FileHolds (PDict [("2024-3-7", PStr "Turtle");
                              ("2024-03-07", PStr "Mint Cookie");
                              ("7 March", PStr "lost");
                              ("2024-3-8", PStr "never read")]))) in
  events self = [((2024, 3, 7), DateData "Mint Cookie" EmptyString)].
Proof. reflexivity. Qed.

(** *** What the store never holds *)

Lemma dict_set_values {K V : Type} `{PyKeyLaws K} (Q : V -> Prop) (k : K) (v : V)
    (d : pydict K V) :
  Q v -> Forall (fun kv => Q (snd kv)) d ->
  Forall (fun kv => Q (snd kv)) (dict_set k v d).
Proof.
  intros Hv. induction d as [|[k' v'] r IH]; simpl; intros Hd.
  - repeat constructor. exact Hv.
  - inversion Hd as [|? ? Hhd Htl]; subst.
    destruct (key_eqb k' k); constructor; auto.
Qed.

Lemma loaded_value_not_str (v : pyval) (s : string) : loaded_value v <> PStr s.
Proof. destruct v; discriminate. Qed.

Lemma loaded_value_id (v : pyval) : (forall s, v <> PStr s) -> loaded_value v = v.
Proof. intros Hv. destruct v; try reflexivity. now destruct (Hv s). Qed.

Lemma load_loop_no_bare_string (entries : list (string * pyval)) :
  forall ev, no_bare_string ev -> no_bare_string (load_loop entries ev).
Proof.
  induction entries as [|[s v] r IH]; intros ev Hev; [assumption|].
  simpl. destruct (parse_date s) as [k|]; [|assumption].
  apply IH. unfold no_bare_string.
  apply (dict_set_values (fun x => forall s, x <> PStr s)); [|exact Hev].
  apply loaded_value_not_str.
Qed.

Lemma no_bare_string_get (ev : pydict DateKey pyval) (k : DateKey) (s : string) :
  no_bare_string ev -> dict_get k ev <> Some (PStr s).
Proof.
  intros Hev Hget. apply dict_get_some_in in Hget.
  unfold no_bare_string in Hev. rewrite Forall_forall in Hev.
  exact (Hev _ Hget s eq_refl).
Qed.

Lemma init_no_bare_string (file : file_state) :
  no_bare_string (events (snd (CalendarApp_init file))).
Proof.
  unfold CalendarApp_init. rewrite _load_events_eq. cbn [snd events _data_file].
  destruct file as [| |[]]; try constructor.
  apply load_loop_no_bare_string. constructor.
Qed.

(** X7: whatever the file, the store that the load of the constructor
    leaves is a dictionary whose dates have no negative component and none
    of whose values is a bare string. *)
Theorem startup_store_invariant (file : file_state) (k : DateKey) :
  let self := snd (CalendarApp_init file) in
  dict_wf (events self) /\
  (get self k <> None -> date_nonneg k) /\
  (forall s, get self k <> Some (PStr s)).
Proof.
  cbv zeta. pose proof (CalendarApp_init_ok file) as [Hwf Hnn].
  split; [exact Hwf | split].
  - intros Hget. unfold get in Hget.
    destruct (in_dec key_eq_dec k (dict_keys (events (snd (CalendarApp_init file)))))
      as [Hin | Hn].
    + rewrite Forall_forall in Hnn. now apply Hnn.
    + apply dict_get_none in Hn. contradiction.
  - intros s. apply no_bare_string_get, init_no_bare_string.
Qed.

(** *** Saving and starting again *)

Lemma load_loop_saved_exact (d : pydict DateKey pyval) :
  forall acc,
    NoDup (dict_keys acc ++ dict_keys d) ->
    Forall date_nonneg (dict_keys d) ->
    load_loop (map (fun kv => (date_key_str (fst kv), snd kv)) d) acc
    = (acc ++ map (fun kv => (fst kv, loaded_value (snd kv))) d)%list.
Proof.
  induction d as [|[k v] r IH]; intros acc Hnd Hnn.
  - simpl. now rewrite app_nil_r.
  - inversion Hnn as [|? ? Hk Hr]; subst.
    cbn [map load_loop fst snd]. rewrite (parse_date_key_str k Hk).
    cbn [dict_keys map fst] in Hnd. rewrite dict_set_fresh.
    + rewrite IH; [| |assumption].
      * now rewrite <- app_assoc.
      * unfold dict_keys in *. rewrite map_app, <- app_assoc. exact Hnd.
    + intros Hin. apply NoDup_remove_2 in Hnd. apply Hnd.
      apply in_or_app. now left.
Qed.

Lemma reopen_events (self : CalendarApp) :
  store_ok (events self) -> no_bare_string (events self) ->
  events (reopen self) = events self.
Proof.
  intros [Hwf Hnn] Hns. unfold reopen, CalendarApp_init.
  rewrite _save_events_eq, _load_events_eq. cbn [snd events _data_file loaded].
  rewrite saved_document by assumption.
  rewrite load_loop_saved_exact by assumption. cbn [app].
  unfold no_bare_string in Hns. induction (events self) as [|[k v] r IH].
  - reflexivity.
  - inversion Hns as [|? ? Hv Hr]; subst.
    inversion Hwf as [|? ? Hnotin Hwf']; subst.
    inversion Hnn as [|? ? Hk Hnn']; subst.
    cbn [map fst snd]. rewrite loaded_value_id by exact Hv.
    f_equal. now apply IH.
Qed.

(** X8: starting the application on any file, saving and starting again
    gives the same store, entry for entry, and saving that store writes the
    same document again. *)
Theorem restart_is_stable (file : file_state) :
  let self := snd (CalendarApp_init file) in
  events (reopen self) = events self /\
  _data_file (snd (_save_events WriteOk (reopen self)))
  = _data_file (snd (_save_events WriteOk self)).
Proof.
  cbv zeta.
  assert (E : events (reopen (snd (CalendarApp_init file)))
              = events (snd (CalendarApp_init file))).
  { apply reopen_events; [apply CalendarApp_init_ok | apply init_no_bare_string]. }
  split; [exact E|]. rewrite !_save_events_eq. cbn [snd _data_file]. now rewrite E.
Qed.

(** X9: a second confirmed [clear_month] for the same month finds nothing
    to remove, and a declined one changes neither the store nor the file. *)
Theorem clear_month_idempotent (self : CalendarApp) (year month_index : Z)
    (w1 w2 w3 : disk_reply) :
  dict_wf (events self) ->
  let once := snd (clear_month year month_index true w1 self) in
  fst (clear_month year month_index true w2 once) = Returned tt /\
  events (snd (clear_month year month_index true w2 once)) = events once /\
  clear_month year month_index false w3 self = (Returned tt, self).
Proof.
  intros Hwf. cbv zeta. rewrite (clear_month_eq year month_index w1 self Hwf).
  rewrite _save_events_eq. cbn [snd].
  rewrite clear_month_eq by (cbn [events]; now apply dict_wf_filter).
  rewrite _save_events_eq. cbn [fst snd events].
  split; [reflexivity | split; [|reflexivity]].
  rewrite filter_twice. apply filter_ext. intros kv.
  now destruct (in_month year month_index (fst kv)).
Qed.

Lemma clear_month_idempotent_witness :
  let self :=
    mkApp [((2024, 3, 7), DateData "Turtle" EmptyString);
           ((2024, 4, 7), DateData "Mint Cookie" "n")] FileMissing in
  dict_wf (events self) /\
  events (snd (clear_month 2024 3 true WriteOk
                 (snd (clear_month 2024 3 true WriteOk self))))
  = [((2024, 4, 7), DateData "Mint Cookie" "n")].
Proof.
  cbv zeta.
  assert (H1 : dict_wf
                 (events
                    (mkApp [((2024, 3, 7), DateData "Turtle" EmptyString);
                            ((2024, 4, 7), DateData "Mint Cookie" "n")]
                       FileMissing))).
  { unfold dict_wf. simpl. repeat constructor; simpl; intuition discriminate. }
  split; [exact H1|].
  pose proof (clear_month_idempotent _ 2024 3 WriteOk WriteOk WriteOk H1)
    as (_ & Hev & _).
  cbv zeta in Hev. rewrite Hev. reflexivity.
Defined.

(** X10: saving a day again with the choice and note it already has leaves
    the store as it is, entry for entry. *)
Theorem set_same_record_unchanged (self : CalendarApp) (key : DateKey)
    (choice note : string) (w : disk_reply) :
  get self key = Some (DateData choice note) ->
  events (snd (save_and_close key choice note w self)) = events self.
Proof.
  intros Hget. rewrite save_and_close_eq, _save_events_eq. cbn [snd events].
  now apply dict_set_unchanged.
Qed.

Lemma set_same_record_unchanged_witness :
  let self :=
    mkApp [((2024, 3, 7), DateData "Turtle" "buy");
           ((2024, 4, 7), DateData "Mint Cookie" EmptyString)] FileMissing in
  get self (2024, 3, 7) = Some (DateData "Turtle" "buy") /\
  events (snd (save_and_close (2024, 3, 7) "Turtle" "buy" WriteOk self))
  = events self.
Proof.
  cbv zeta.
  assert (H1 : get (mkApp [((2024, 3, 7), DateData "Turtle" "buy");
                           ((2024, 4, 7), DateData "Mint Cookie" EmptyString)]
                      FileMissing) (2024, 3, 7)
               = Some (DateData "Turtle" "buy")) by reflexivity.
  split; [exact H1|].
  exact (set_same_record_unchanged _ (2024, 3, 7) "Turtle" "buy" WriteOk H1).
Defined.

(** ** The selectors and the month grid *)

Lemma parse_unsigned_digits (s : string) (n : Z) :
  s <> EmptyString -> digits_value s 0 = Some n ->
  PyStr.parse_unsigned s = Some n.
Proof.
  destruct s as [|c r]; [congruence|]. intros _ Hv. simpl in Hv |- *.
  destruct (PyStr.digit_value c) as [d|]; [|discriminate].
  apply scan_digits_value, Hv.
Qed.

(** [int(str(z))] is [z], for every integer. *)
Lemma py_int_str_int_all (z : Z) : PyStr.py_int (PyStr.str_int z) = Some z.
Proof.
  destruct (Z.ltb_spec z 0) as [Hneg | Hpos]; [|now apply py_int_str_int].
  unfold PyStr.str_int. destruct (Z.ltb_spec z 0); [|lia].
  unfold PyStr.py_int. cbn [PyStr.lstrip].
  change (PyStr.is_space "-") with false. cbv iota.
  rewrite (parse_unsigned_digits _ (- z)).
  - simpl. now rewrite Z.opp_involutive.
  - apply str_nonneg_not_empty. lia.
  - apply str_nonneg_value. lia.
Qed.

Lemma py_range_in (a b x : Z) : In x (py_range a b) <-> a <= x < b.
Proof.
  unfold py_range. rewrite in_map_iff. split.
  - intros (i & <- & Hi). apply in_seq in Hi. lia.
  - intros Hx. exists (Z.to_nat (x - a)). split; [lia|].
    apply in_seq. lia.
Qed.

Lemma py_range_length (a b : Z) : List.length (py_range a b) = Z.to_nat (b - a).
Proof. unfold py_range. now rewrite length_map, length_seq. Qed.

Lemma list_index_months (month_var : string) :
  In month_var months ->
  exists m, list_index month_var PyCalendar.month_name = Some m /\
            1 <= m <= 12 /\
            nth (Z.to_nat m) PyCalendar.month_name EmptyString = month_var.
Proof.
  unfold months, PyCalendar.month_name. cbn [tl In]. intros H.
  repeat (destruct H as [<- | H];
          [eexists; split; [reflexivity | split; [lia | reflexivity]] |]).
  contradiction.
Qed.

(** With the values the two selectors offer, reading them back never
    raises: the year is one of the eleven around the current one and the
    month is between 1 and 12. *)
Lemma selection_offered (current_year : Z) (year_var month_var : string) :
  In year_var (years current_year) -> In month_var months ->
  exists y m,
    selection year_var month_var = Returned (y, m) /\
    current_year - 5 <= y <= current_year + 5 /\
    1 <= m <= 12.
Proof.
  intros Hy Hm. unfold years in Hy. apply in_map_iff in Hy as (y & <- & Hy).
  apply py_range_in in Hy.
  destruct (list_index_months month_var Hm) as (m & Hidx & Hm12 & _).
  exists y, m. unfold selection. rewrite Hidx, py_int_str_int_all.
  repeat split; lia.
Qed.

(** *** The weeks of a month *)

Lemma firstn_plus {A : Type} (a b : nat) (l : list A) :
  firstn (a + b) l = (firstn a l ++ firstn b (skipn a l))%list.
Proof.
  revert l. induction a as [|a IH]; intros l; [reflexivity|].
  destruct l as [|x l]; simpl.
  - now rewrite firstn_nil.
  - now rewrite IH.
Qed.

Lemma chunks_concat {A : Type} (l : list A) (m : nat) :
  List.concat (map (fun j => firstn 7 (skipn (7 * j)%nat l)) (seq 0 m))
  = firstn (7 * m)%nat l.
Proof.
  induction m as [|m IH]; [reflexivity|].
  rewrite seq_S, map_app, concat_app, IH. cbn [map List.concat plus].
  rewrite app_nil_r. replace (7 * S m)%nat with (7 * m + 7)%nat by lia.
  now rewrite firstn_plus.
Qed.

Lemma weeks_as_chunks {A : Type} (days : list A) :
  map (fun i => py_slice days i (i + 7))
    (py_range_step (Z.of_nat (List.length days)) 7)
  = map (fun j => firstn 7 (skipn (7 * j)%nat days))
      (seq 0 (Z.to_nat ((Z.of_nat (List.length days) + 7 - 1) / 7))).
Proof.
  unfold py_range_step. rewrite map_map. apply map_ext. intros j.
  unfold py_slice. f_equal; [lia | f_equal; lia].
Qed.

Lemma weeks_of_full_list {A : Type} (days : list A) (q : nat) :
  List.length days = (7 * q)%nat ->
  let weeks :=
    map (fun i => py_slice days i (i + 7))
      (py_range_step (Z.of_nat (List.length days)) 7) in
  List.concat weeks = days /\
  Forall (fun week => List.length week = 7%nat) weeks /\
  List.length weeks = q.
Proof.
  intros Hlen. cbv zeta. rewrite weeks_as_chunks.
  assert (Hq : Z.to_nat ((Z.of_nat (List.length days) + 7 - 1) / 7) = q).
  { rewrite Hlen. apply Nat2Z.inj. rewrite Z2Nat.id.
    - Z.to_euclidean_division_equations; lia.
    - apply Z.div_pos; lia. }
  rewrite Hq. split; [|split].
  - rewrite chunks_concat, <- Hlen. apply firstn_all.
  - apply Forall_forall. intros week Hin.
    apply in_map_iff in Hin as (j & <- & Hj). apply in_seq in Hj.
    rewrite length_firstn, length_skipn. lia.
  - now rewrite length_map, length_seq.
Qed.

(** The days that get a button: the non-zero cells, row by row. *)
Lemma cells_of_week (r : Z) (week idx : list Z) :
  List.length idx = List.length week ->
  map snd
    (flat_map (fun cd => if snd cd =? 0 then [] else [(r, fst cd, snd cd)])
       (combine idx week))
  = filter (fun d => negb (d =? 0)) week.
Proof.
  revert idx. induction week as [|d week IH]; intros [|i idx] Hlen;
    try discriminate; [reflexivity|].
  cbn [combine flat_map filter fst snd]. rewrite map_app, IH by (simpl in Hlen; lia).
  now destruct (d =? 0).
Qed.

Lemma button_days_days (weeks : list (list Z)) :
  map snd (button_days weeks)
  = filter (fun d => negb (d =? 0)) (List.concat weeks).
Proof.
  unfold button_days, enumerate.
  assert (G : forall idx : list Z,
             List.length idx = List.length weeks ->
             map snd
               (flat_map
                  (fun rw =>
                     flat_map
                       (fun cd =>
                          if snd cd =? 0 then [] else [(fst rw, fst cd, snd cd)])
                       (combine (map Z.of_nat (seq 0 (List.length (snd rw))))
                          (snd rw)))
                  (combine idx weeks))
             = filter (fun d => negb (d =? 0)) (List.concat weeks)).
  { induction weeks as [|week weeks IH]; intros [|r idx] Hlen;
      try discriminate; [reflexivity|].
    cbn [combine flat_map List.concat fst snd].
    rewrite map_app, filter_app, IH by (simpl in Hlen; lia). f_equal.
    apply cells_of_week. now rewrite length_map, length_seq. }
  apply G. now rewrite length_map, length_seq.
Qed.

Lemma isleap_is_leap (year : Z) : PyCalendar.isleap year = is_leap year.
Proof.
  unfold PyCalendar.isleap, is_leap.
  destruct (Z.eqb_spec (year mod 4) 0), (Z.eqb_spec (year mod 100) 0),
    (Z.eqb_spec (year mod 400) 0); try reflexivity;
    exfalso; Z.to_euclidean_division_equations; lia.
Qed.

Lemma ndays_days_in_month (year month : Z) :
  1 <= month <= 12 ->
  nth (Z.to_nat month) PyCalendar.mdays 0
  + (if (month =? 2) && PyCalendar.isleap year then 1 else 0)
  = days_in_month year month /\
  28 <= days_in_month year month <= 31.
Proof.
  intros Hm. rewrite isleap_is_leap.
  assert (month = 1 \/ month = 2 \/ month = 3 \/ month = 4 \/ month = 5 \/
          month = 6 \/ month = 7 \/ month = 8 \/ month = 9 \/ month = 10 \/
          month = 11 \/ month = 12) as H by lia.
  repeat (destruct H as [-> | H];
          [simpl; try destruct (is_leap year); split; lia |]).
  subst month. simpl. split; lia.
Qed.

Lemma filter_nonzero_days (before after : nat) (ndays : Z) :
  filter (fun d => negb (d =? 0))
    (repeat 0 before ++ py_range 1 (ndays + 1) ++ repeat 0 after)%list
  = py_range 1 (ndays + 1).
Proof.
  rewrite !filter_app.
  assert (Hz : forall n, filter (fun d => negb (d =? 0)) (repeat 0 n) = []).
  { induction n; simpl; auto. }
  rewrite !Hz, app_nil_r. cbn [app].
  apply forallb_filter_id, forallb_forall. intros x Hx.
  apply py_range_in in Hx. destruct (Z.eqb_spec x 0); [lia | reflexivity].
Qed.

(** [monthdayscalendar] of a legal month: weeks of seven cells, between
    four and six of them, whose non-zero cells are the days of the month in
    order. *)
Lemma monthdayscalendar_days (year month : Z) :
  1 <= month <= 12 ->
  exists weeks,
    PyCalendar.monthdayscalendar 0 year month = Returned weeks /\
    Forall (fun week => List.length week = 7%nat) weeks /\
    (4 <= List.length weeks <= 6)%nat /\
    map snd (button_days weeks) = py_range 1 (days_in_month year month + 1).
Proof.
  intros Hm. unfold PyCalendar.monthdayscalendar, PyCalendar.itermonthdays,
    PyCalendar.monthrange.
  destruct (Z.leb_spec 1 month); [|lia]. destruct (Z.leb_spec month 12); [|lia].
  cbn [andb and_then].
  destruct (ndays_days_in_month year month Hm) as [-> Hnd].
  set (day1 := PyCalendar.weekday year month 1).
  set (nd := days_in_month year month) in *.
  set (before := Z.to_nat ((day1 - 0) mod 7)).
  set (after := Z.to_nat ((0 - day1 - nd) mod 7)).
  set (days := (repeat 0 before ++ py_range 1 (nd + 1) ++ repeat 0 after)%list).
  assert (Hlen : exists q, List.length days = (7 * q)%nat /\ (4 <= q <= 6)%nat).
  { exists (Z.to_nat ((Z.of_nat before + nd + Z.of_nat after) / 7)).
    subst days. rewrite !length_app, !repeat_length, py_range_length.
    subst before after.
    pose proof (Z.mod_pos_bound (day1 - 0) 7 ltac:(lia)).
    pose proof (Z.mod_pos_bound (0 - day1 - nd) 7 ltac:(lia)).
    rewrite !Z2Nat.id by lia.
    split.
    - apply Nat2Z.inj. rewrite !Nat2Z.inj_add, Nat2Z.inj_mul, !Z2Nat.id.
      + Z.to_euclidean_division_equations; lia.
      + apply Z.div_pos; lia.
      + lia.
      + lia.
      + lia.
    - split.
      + apply Nat2Z.inj_le. rewrite Z2Nat.id by (apply Z.div_pos; lia).
        Z.to_euclidean_division_equations; lia.
      + apply Nat2Z.inj_le. rewrite Z2Nat.id by (apply Z.div_pos; lia).
        Z.to_euclidean_division_equations; lia. }
  destruct Hlen as (q & Hlen & Hq).
  destruct (weeks_of_full_list days q Hlen) as (Hcat & Hall & Hcount).
  eexists. split; [reflexivity|]. split; [exact Hall|]. split; [lia|].
  rewrite button_days_days, Hcat. apply filter_nonzero_days.
Qed.

(** X11: with any of the values the two selectors offer, [draw_calendar]
    gets a grid of four to six weeks of seven cells, and the days that get
    a button are exactly the days of that month, each once and in order. *)
Theorem month_grid_has_the_days (current_year : Z) (year_var month_var : string) :
  In year_var (years current_year) -> In month_var months ->
  exists y m weeks,
    selection year_var month_var = Returned (y, m) /\
    current_year - 5 <= y <= current_year + 5 /\ 1 <= m <= 12 /\
    month_weeks year_var month_var = Returned weeks /\
    Forall (fun week => List.length week = 7%nat) weeks /\
    (4 <= List.length weeks <= 6)%nat /\
    map snd (button_days weeks) = py_range 1 (days_in_month y m + 1) /\
    28 <= days_in_month y m <= 31.
Proof.
  intros Hy Hm.
  destruct (selection_offered current_year year_var month_var Hy Hm)
    as (y & m & Hsel & Hyr & Hm12).
  destruct (monthdayscalendar_days y m Hm12) as (weeks & Hw & Hall & Hcount & Hdays).
  exists y, m, weeks. unfold month_weeks. rewrite Hsel. cbn [and_then fst snd].
  repeat split; try assumption; try lia;
    apply (ndays_days_in_month y m Hm12).
Qed.

Lemma month_grid_has_the_days_witness :
  In "2024" (years 2026) /\ In "February" months /\
  month_weeks "2024" "February"
  = Returned
      [[0; 0; 0; 1; 2; 3; 4]; [5; 6; 7; 8; 9; 10; 11];
       [12; 13; 14; 15; 16; 17; 18]; [19; 20; 21; 22; 23; 24; 25];
       [26; 27; 28; 29; 0; 0; 0]] /\
  exists y m weeks,
    selection "2024" "February" = Returned (y, m) /\
    2026 - 5 <= y <= 2026 + 5 /\ 1 <= m <= 12 /\
    month_weeks "2024" "February" = Returned weeks /\
    Forall (fun week => List.length week = 7%nat) weeks /\
    (4 <= List.length weeks <= 6)%nat /\
    map snd (button_days weeks) = py_range 1 (days_in_month y m + 1) /\
    28 <= days_in_month y m <= 31.
Proof.
  assert (H1 : In "2024" (years 2026)) by (vm_compute; tauto).
  assert (H2 : In "February" months) by (vm_compute; tauto).
  split; [exact H1 | split; [exact H2 | split; [reflexivity|]]].
  exact (month_grid_has_the_days 2026 "2024" "February" H1 H2).
Defined.

(** *** The dates the interface can reach *)

Lemma offered_save_key (current_year : Z) (year_var month_var : string)
    (day : Z) (choice note : string) (w : disk_reply) :
  6 <= current_year ->
  offered current_year (ClickSave year_var month_var day choice note w) ->
  exists y m,
    selection year_var month_var = Returned (y, m) /\
    real_calendar_date (y, m, day) = true /\ date_nonneg (y, m, day).
Proof.
  intros Hcy (Hy & Hm & weeks & r & c & Hweeks & Hin).
  destruct (selection_offered current_year year_var month_var Hy Hm)
    as (y & m & Hsel & Hyr & Hm12).
  exists y, m. split; [exact Hsel|].
  unfold month_weeks in Hweeks. rewrite Hsel in Hweeks. cbn [and_then fst snd] in Hweeks.
  destruct (monthdayscalendar_days y m Hm12) as (weeks' & Hw & _ & _ & Hdays).
  rewrite Hw in Hweeks. injection Hweeks as <-.
  assert (Hday : In day (map snd (button_days weeks'))).
  { change day with (snd (r, c, day)). now apply in_map. }
  rewrite Hdays in Hday. apply py_range_in in Hday.
  split.
  - unfold real_calendar_date. apply andb_true_iff. split.
    + apply andb_true_iff. split; apply Z.leb_le; lia.
    + apply Z.leb_le. lia.
  - unfold date_nonneg. lia.
Qed.

Lemma open_event_dialog_key (year_var month_var : string) (day y m : Z)
    (self : CalendarApp) (dlg : dialog) :
  selection year_var month_var = Returned (y, m) ->
  open_event_dialog year_var month_var day self = Returned dlg ->
  dlg_key dlg = (y, m, day).
Proof.
  intros Hsel. unfold open_event_dialog. rewrite Hsel. cbn [and_then fst snd].
  destruct (dict_get ((y, m, day) : DateKey) (events self)) as [data|].
  - destruct (truthy data).
    + destruct (py_get data "choice") as [sel|e]; [|discriminate]. cbn [and_then].
      destruct (py_get data "note") as [n|e]; [|discriminate]. cbn [and_then].
      destruct (truthy n).
      * destruct (py_getitem data "note"); [|discriminate]. cbn [and_then].
        intros E; injection E as <-. reflexivity.
      * intros E; injection E as <-. reflexivity.
    + cbn [and_then]. intros E; injection E as <-. reflexivity.
  - cbn [and_then]. intros E; injection E as <-. reflexivity.
Qed.

(** X12: every day dialog the grid can open is for a real calendar date:
    with the selectors on values they offer (the current year being 6 or
    later) and the day one that has a button, the key of the dialog is a
    date of the Gregorian calendar, and has no negative component. *)
Theorem dialog_key_is_real_date (current_year : Z) (year_var month_var : string)
    (day : Z) (choice note : string) (w : disk_reply) (self : CalendarApp)
    (dlg : dialog) :
  6 <= current_year ->
  offered current_year (ClickSave year_var month_var day choice note w) ->
  open_event_dialog year_var month_var day self = Returned dlg ->
  real_calendar_date (dlg_key dlg) = true /\ date_nonneg (dlg_key dlg).
Proof.
  intros Hcy Hoff Hopen.
  destruct (offered_save_key current_year year_var month_var day choice note w
              Hcy Hoff) as (y & m & Hsel & Hreal & Hnn).
  rewrite (open_event_dialog_key year_var month_var day y m self dlg Hsel Hopen).
  split; assumption.
Qed.

Lemma dialog_key_is_real_date_witness :
  6 <= 2026 /\
  offered 2026 (ClickSave "2024" "February" 29 "Turtle" EmptyString WriteOk) /\
  open_event_dialog "2024" "February" 29 (mkApp [] FileMissing)
  = Returned (mkDialog (2024, 2, 29) (PStr "Butter Pecan") None) /\
  real_calendar_date (2024, 2, 29) = true /\ date_nonneg (2024, 2, 29).
Proof.
  assert (H1 : 6 <= 2026) by lia.
  assert (H2 : offered 2026
                 (ClickSave "2024" "February" 29 "Turtle" EmptyString WriteOk)).
  { split; [vm_compute; tauto | split; [vm_compute; tauto |]].
    eexists; exists 4, 3. split; [reflexivity|]. vm_compute. tauto. }
  assert (H3 : open_event_dialog "2024" "February" 29 (mkApp [] FileMissing)
               = Returned (mkDialog (2024, 2, 29) (PStr "Butter Pecan") None))
    by reflexivity.
  split; [exact H1 | split; [exact H2 | split; [exact H3|]]].
  exact (dialog_key_is_real_date 2026 "2024" "February" 29 "Turtle" EmptyString
           WriteOk (mkApp [] FileMissing) _ H1 H2 H3).
Defined.

Lemma no_bare_string_filter (p : DateKey * pyval -> bool)
    (ev : pydict DateKey pyval) :
  no_bare_string ev -> no_bare_string (filter p ev).
Proof.
  unfold no_bare_string. rewrite !Forall_forall. intros Hev kv Hin.
  apply filter_In in Hin as [Hin _]. now apply Hev.
Qed.

Lemma store_ok_filter (p : DateKey * pyval -> bool) (ev : pydict DateKey pyval) :
  store_ok ev -> store_ok (filter p ev).
Proof.
  intros [Hwf Hnn]. split; [now apply dict_wf_filter|].
  unfold dict_keys in *. rewrite Forall_forall in *. intros x Hx.
  apply in_map_iff in Hx as (kv & <- & Hin). apply filter_In in Hin as [Hin _].
  apply Hnn. now apply in_map.
Qed.

Lemma save_selected_sound (current_year : Z) (year_var month_var : string)
    (day : Z) (choice note : string) (w : disk_reply) (self : CalendarApp) :
  6 <= current_year ->
  offered current_year (ClickSave year_var month_var day choice note w) ->
  exists y m,
    selection year_var month_var = Returned (y, m) /\
    date_nonneg (y, m, day) /\
    save_selected year_var month_var day choice note w self
    = (Returned tt,
       mkApp (dict_set (y, m, day) (DateData choice note) (events self))
         (_data_file (snd (save_selected year_var month_var day choice note w self)))).
Proof.
  intros Hcy Hoff.
  destruct (offered_save_key current_year year_var month_var day choice note w
              Hcy Hoff) as (y & m & Hsel & _ & Hnn).
  exists y, m. split; [exact Hsel | split; [exact Hnn|]].
  unfold save_selected. rewrite Hsel. cbn [fst snd].
  rewrite save_and_close_eq, _save_events_eq. reflexivity.
Qed.

Lemma clear_month_selected_sound (current_year : Z) (year_var month_var : string)
    (confirmed : bool) (w : disk_reply) (self : CalendarApp) :
  In year_var (years current_year) -> In month_var months ->
  dict_wf (events self) ->
  exists y m,
    selection year_var month_var = Returned (y, m) /\
    clear_month_selected year_var month_var confirmed w self
    = (Returned tt,
       mkApp (if confirmed
              then filter (fun kv => negb (in_month y m (fst kv))) (events self)
              else events self)
         (_data_file
            (snd (clear_month_selected year_var month_var confirmed w self)))).
Proof.
  intros Hy Hm Hwf.
  destruct (selection_offered current_year year_var month_var Hy Hm)
    as (y & m & Hsel & _).
  exists y, m. split; [exact Hsel|].
  unfold clear_month_selected. rewrite Hsel. cbn [fst snd].
  destruct confirmed.
  - rewrite clear_month_eq, _save_events_eq by assumption. reflexivity.
  - destruct self. reflexivity.
Qed.

Section CallbackFacts.
Variable repr_container : pyval -> string.

Lemma redraw_after (m : M unit) (year_var month_var : string) (self : CalendarApp) :
  snd ((m ;;; redraw repr_container year_var month_var) self) = snd (m self).
Proof.
  unfold bind, redraw. destruct (m self) as [[[]|e] self']; [|reflexivity].
  now destruct (draw_calendar repr_container year_var month_var self').
Qed.

Lemma run_action_store (a : ui_action) (self : CalendarApp) :
  snd (run_action repr_container a self)
  = match a with
    | ClickSave year_var month_var day choice note w =>
        snd (save_selected year_var month_var day choice note w self)
    | ClickClear year_var month_var confirmed w =>
        snd (clear_month_selected year_var month_var confirmed w self)
    end.
Proof.
  destruct a as [yv mv day choice note w | yv mv confirmed w]; cbn [run_action].
  - apply redraw_after.
  - unfold clear_clicked. destruct confirmed; [apply redraw_after|].
    unfold bind. now destruct (clear_month_selected yv mv false w self) as [[[]|e] s'].
Qed.

Lemma run_action_sound (current_year : Z) (a : ui_action) (self : CalendarApp) :
  6 <= current_year -> offered current_year a ->
  store_ok (events self) -> no_bare_string (events self) ->
  store_ok (events (snd (run_action repr_container a self))) /\
  no_bare_string (events (snd (run_action repr_container a self))).
Proof.
  intros Hcy Hoff Hok Hns. rewrite run_action_store.
  destruct a as [yv mv day choice note w | yv mv confirmed w].
  - destruct (save_selected_sound current_year yv mv day choice note w self
                Hcy Hoff) as (y & m & _ & Hnn & ->).
    cbn [snd events]. destruct Hok as [Hwf Hall]. split; [split|].
    + now apply dict_wf_set.
    + now apply dict_keys_set_all.
    + unfold no_bare_string.
      apply (dict_set_values (fun x => forall s, x <> PStr s)); [|exact Hns].
      intros s. discriminate.
  - destruct Hoff as [Hy Hm].
    destruct (clear_month_selected_sound current_year yv mv confirmed w self
                Hy Hm (proj1 Hok)) as (y & m & _ & ->).
    cbn [snd events]. destruct confirmed; [|auto].
    split; [now apply store_ok_filter | now apply no_bare_string_filter].
Qed.

(** X13: whatever file the application starts on and whatever the user
    then does with the widgets (the current year being 6 or later) and the
    disk with the writes, and whether or not a redraw raises, the store
    stays a dictionary of dates without negative component and without bare
    strings, and a save and a restart give that store back entry for
    entry. *)
Theorem interface_keeps_store_sound (current_year : Z) (file : file_state)
    (actions : list ui_action) :
  6 <= current_year ->
  Forall (offered current_year) actions ->
  let final :=
    run_actions repr_container actions (snd (CalendarApp_init file)) in
  store_ok (events final) /\
  no_bare_string (events final) /\
  events (reopen final) = events final.
Proof.
  intros Hcy Hall. cbv zeta.
  enough (G : forall self,
             store_ok (events self) -> no_bare_string (events self) ->
             store_ok (events (run_actions repr_container actions self)) /\
             no_bare_string (events (run_actions repr_container actions self))).
  { destruct (G (snd (CalendarApp_init file)) (CalendarApp_init_ok file)
                (init_no_bare_string file)) as (Hok & Hns).
    repeat split; try assumption; try apply Hok. now apply reopen_events. }
  induction actions as [|a rest IH]; intros self Hok Hns.
  - cbn. auto.
  - inversion Hall as [|? ? Ha Hrest]; subst.
    destruct (run_action_sound current_year a self Hcy Ha Hok Hns) as (Hok' & Hns').
    unfold run_actions. cbn [fold_left]. now apply IH.
Qed.

End CallbackFacts.

Lemma interface_keeps_store_sound_witness :
  let actions :=
    [ClickSave "2024" "February" 29 "Turtle" "leap day" WriteOk;
     ClickSave "2026" "November" 4 EmptyString EmptyString
       (WriteFails OSError FileMissing);
     ClickClear "2024" "February" true WriteOk] in
  let file :=
    FileHolds (PDict [("2026-11-30", PStr "Mint Cookie"); ("2026-11-5", PInt 5)]) in
  6 <= 2026 /\
  Forall (offered 2026) actions /\
  fst (run_action (fun _ => "[...]")
         (ClickSave "2026" "November" 4 EmptyString EmptyString WriteOk)
         (snd (CalendarApp_init file)))
  = Raised AttributeError /\
  events (run_actions (fun _ => "[...]") actions (snd (CalendarApp_init file)))
  = [((2026, 11, 30), DateData "Mint Cookie" EmptyString);
     ((2026, 11, 5), PInt 5);
     ((2026, 11, 4), DateData EmptyString EmptyString)] /\
  events (reopen (run_actions (fun _ => "[...]") actions
                    (snd (CalendarApp_init file))))
  = events (run_actions (fun _ => "[...]") actions (snd (CalendarApp_init file))).
Proof.
  cbv zeta.
  assert (H1 : 6 <= 2026) by lia.
  assert (H2 : Forall (offered 2026)
                 [ClickSave "2024" "February" 29 "Turtle" "leap day" WriteOk;
                  ClickSave "2026" "November" 4 EmptyString EmptyString
                    (WriteFails OSError FileMissing);
                  ClickClear "2024" "February" true WriteOk]).
  { constructor; [|constructor; [|constructor; [|constructor]]].
    - split; [vm_compute; tauto | split; [vm_compute; tauto |]].
      eexists; exists 4, 3. split; [reflexivity|]. vm_compute. tauto.
    - split; [vm_compute; tauto | split; [vm_compute; tauto |]].
      eexists; exists 1, 2. split; [reflexivity|]. vm_compute. tauto.
    - split; vm_compute; tauto. }
  split; [exact H1 | split; [exact H2 | split; [reflexivity | split; [reflexivity|]]]].
  exact (proj2 (proj2
    (interface_keeps_store_sound (fun _ => "[...]") 2026
       (FileHolds (PDict [("2026-11-30", PStr "Mint Cookie"); ("2026-11-5", PInt 5)]))
       _ H1 H2))).
Defined.

(** ** The day buttons and the day dialog *)

Section RenderingFacts.
Variable repr_container : pyval -> string.

(** X14: after [set] for a day, the button of that day is highlighted,
    also when choice and note are both empty, and its label is the day
    number, then the choice on a new line if it is not empty, then the note
    after an empty line if it is not empty. *)
Theorem button_after_set (self : CalendarApp) (year month_index day r c : Z)
    (choice note : string) (w : disk_reply) :
  make_button repr_container
    (snd (save_and_close (year, month_index, day) choice note w self))
    year month_index (r, c, day)
  = Returned
      (mkButton (r + 1) c day
         (let text :=
            match choice with
            | EmptyString => PyStr.str_int day
            | _ => PyStr.str_int day ++ newline ++ choice
            end in
          match note with
          | EmptyString => text
          | _ => text ++ newline ++ newline ++ note
          end)
         "lightblue").
Proof.
  rewrite save_and_close_eq, _save_events_eq. unfold make_button.
  cbn [snd events]. rewrite dict_get_set_same.
  destruct choice, note; reflexivity.
Qed.

Lemma make_buttons_plain (self : CalendarApp) (year month_index : Z)
    (cells : list (Z * Z * Z)) :
  (forall cell, In cell cells ->
                get self (year, month_index, snd cell) = None) ->
  make_buttons repr_container self year month_index cells
  = Returned
      (map (fun cell =>
              mkButton (fst (fst cell) + 1) (snd (fst cell)) (snd cell)
                (PyStr.str_int (snd cell)) "#e8f4ff")
         cells).
Proof.
  induction cells as [|[[r c] day] rest IH]; intros Hnone; [reflexivity|].
  cbn [make_buttons map fst snd]. unfold make_button at 1.
  pose proof (Hnone (r, c, day) (or_introl eq_refl)) as H0. cbn [snd] in H0.
  unfold get in H0. cbv zeta. rewrite H0. cbn [display_text and_then truthy_opt].
  rewrite IH by (intros cell Hin; apply Hnone; now right). reflexivity.
Qed.

(** X15: right after a confirmed [clear_month], the redraw of the selected
    month shows every day with its bare number and without highlight. *)
Theorem month_blank_after_clear (current_year : Z) (year_var month_var : string)
    (self : CalendarApp) (w : disk_reply) :
  In year_var (years current_year) -> In month_var months ->
  dict_wf (events self) ->
  exists weeks,
    month_weeks year_var month_var = Returned weeks /\
    draw_calendar repr_container year_var month_var
      (snd (clear_month_selected year_var month_var true w self))
    = Returned
        (map (fun cell =>
                mkButton (fst (fst cell) + 1) (snd (fst cell)) (snd cell)
                  (PyStr.str_int (snd cell)) "#e8f4ff")
           (button_days weeks)).
Proof.
  intros Hy Hm Hwf.
  destruct (selection_offered current_year year_var month_var Hy Hm)
    as (y & m & Hsel & _ & Hm12).
  destruct (monthdayscalendar_days y m Hm12) as (weeks & Hw & _).
  exists weeks. unfold month_weeks, draw_calendar, clear_month_selected.
  rewrite Hsel. cbn [and_then fst snd]. rewrite Hw. cbn [and_then].
  split; [reflexivity|].
  rewrite clear_month_eq, _save_events_eq by assumption. cbn [snd].
  apply make_buttons_plain. intros cell _. unfold get. cbn [events].
  rewrite (dict_get_filter (fun k => negb (in_month y m k))).
  unfold in_month. now rewrite !Z.eqb_refl.
Qed.

Lemma display_text_of_dict (day : Z) (entries : list (string * pyval)) :
  exists text,
    display_text repr_container day (Some (PDict entries)) = Returned text.
Proof.
  unfold display_text. destruct (truthy (PDict entries)); [|eauto].
  cbn [py_get and_then py_getitem].
  destruct (dict_get "choice" entries) as [x|]; cbn [truthy and_then].
  - destruct (truthy x); cbn [and_then]; eauto.
  - eauto.
Qed.

Lemma make_button_outcome (self : CalendarApp) (year month_index : Z)
    (cell : Z * Z * Z) :
  (exists b, make_button repr_container self year month_index cell = Returned b
             /\ btn_day b = snd cell
             /\ btn_bg b
                = if truthy_opt (get self (year, month_index, snd cell))
                  then "lightblue" else "#e8f4ff") \/
  (make_button repr_container self year month_index cell = Raised AttributeError /\
   exists v, get self (year, month_index, snd cell) = Some v /\
             truthy v = true /\ forall entries, v <> PDict entries).
Proof.
  destruct cell as [[r c] day]. unfold make_button, get. cbn [snd]. cbv zeta.
  destruct (dict_get ((year, month_index, day) : DateKey) (events self)) as [v|].
  - destruct v as [ | b | z | f | s | items | entries].
    7: { left. destruct (display_text_of_dict day entries) as (text & Htext).
         rewrite Htext. cbn [and_then]. eexists. repeat split. }
    all: cbn [display_text truthy_opt];
      match goal with
      | |- context [truthy ?v] => destruct (truthy v) eqn:Ht
      end;
      [right; cbn [py_get and_then]; split; [reflexivity|];
       eexists; split; [reflexivity | split; [exact Ht | discriminate]]
      | left; cbn [and_then]; eexists; repeat split].
  - left. cbn [display_text and_then truthy_opt]. eexists. repeat split.
Qed.

Lemma make_button_raises (self : CalendarApp) (year month_index : Z)
    (cell : Z * Z * Z) (v : pyval) :
  get self (year, month_index, snd cell) = Some v ->
  truthy v = true -> (forall entries, v <> PDict entries) ->
  make_button repr_container self year month_index cell = Raised AttributeError.
Proof.
  destruct cell as [[r c] day]. cbn [snd]. intros Hget Ht Hnd.
  unfold make_button. unfold get in Hget. cbv zeta. rewrite Hget.
  unfold display_text. rewrite Ht.
  destruct v; try reflexivity. now destruct (Hnd entries).
Qed.

Lemma make_buttons_raise (self : CalendarApp) (year month_index : Z)
    (cells : list (Z * Z * Z)) (cell : Z * Z * Z) (v : pyval) :
  In cell cells ->
  get self (year, month_index, snd cell) = Some v ->
  truthy v = true -> (forall entries, v <> PDict entries) ->
  make_buttons repr_container self year month_index cells = Raised AttributeError.
Proof.
  intros Hin Hget Ht Hnd. induction cells as [|c0 rest IH]; [contradiction|].
  cbn [make_buttons]. destruct Hin as [-> | Hin].
  - now rewrite (make_button_raises self year month_index cell v).
  - destruct (make_button_outcome self year month_index c0)
      as [(b & -> & _) | (-> & _)]; [|reflexivity].
    cbn [and_then]. now rewrite (IH Hin).
Qed.

Lemma make_buttons_return (self : CalendarApp) (year month_index : Z)
    (cells : list (Z * Z * Z)) :
  (forall k v, get self k = Some v -> truthy v = true ->
               exists entries, v = PDict entries) ->
  exists buttons,
    make_buttons repr_container self year month_index cells = Returned buttons /\
    map btn_day buttons = map snd cells /\
    Forall
      (fun b =>
         btn_bg b
         = if truthy_opt (get self (year, month_index, btn_day b))
           then "lightblue" else "#e8f4ff")
      buttons.
Proof.
  intros Hdict. induction cells as [|c0 rest IH].
  - exists []. repeat split. constructor.
  - destruct IH as (bs & Hbs & Hdays & Hbg). cbn [make_buttons].
    destruct (make_button_outcome self year month_index c0)
      as [(b & -> & Hday & Hb) | (_ & v & Hget & Ht & Hnd)].
    + cbn [and_then]. rewrite Hbs. cbn [and_then]. exists (b :: bs).
      split; [reflexivity | split].
      * cbn [map]. now rewrite Hday, Hdays.
      * constructor; [now rewrite Hday | exact Hbg].
    + destruct (Hdict _ _ Hget Ht) as (entries & ->). now destruct (Hnd entries).
Qed.

(** X16: a value of the store that is true for Python and is not a
    dictionary (a number, a list, [true]) on a day of the selected month
    makes [draw_calendar] raise [AttributeError]. *)
Theorem draw_raises_on_non_dict (year_var month_var : string) (y m : Z)
    (weeks : list (list Z)) (self : CalendarApp) (r c day : Z) (v : pyval) :
  selection year_var month_var = Returned (y, m) ->
  PyCalendar.monthdayscalendar 0 y m = Returned weeks ->
  In (r, c, day) (button_days weeks) ->
  get self (y, m, day) = Some v ->
  truthy v = true -> (forall entries, v <> PDict entries) ->
  draw_calendar repr_container year_var month_var self = Raised AttributeError.
Proof.
  intros Hsel Hw Hin Hget Ht Hnd. unfold draw_calendar.
  rewrite Hsel. cbn [and_then fst snd]. rewrite Hw. cbn [and_then].
  exact (make_buttons_raise self y m (button_days weeks) (r, c, day) v
           Hin Hget Ht Hnd).
Qed.

(** X17: when every value of the store that is true for Python is a
    dictionary (as after any sequence of [set] calls on an empty store),
    [draw_calendar] returns for every offered selection: one button per day
    of the month, in order, highlighted exactly on the days whose value is
    true. *)
Theorem draw_returns_on_dicts (current_year : Z) (year_var month_var : string)
    (self : CalendarApp) :
  In year_var (years current_year) -> In month_var months ->
  (forall k v, get self k = Some v -> truthy v = true ->
               exists entries, v = PDict entries) ->
  exists y m buttons,
    selection year_var month_var = Returned (y, m) /\
    draw_calendar repr_container year_var month_var self = Returned buttons /\
    map btn_day buttons = py_range 1 (days_in_month y m + 1) /\
    Forall
      (fun b =>
         btn_bg b
         = if truthy_opt (get self (y, m, btn_day b))
           then "lightblue" else "#e8f4ff")
      buttons.
Proof.
  intros Hy Hm Hdict.
  destruct (selection_offered current_year year_var month_var Hy Hm)
    as (y & m & Hsel & _ & Hm12).
  destruct (monthdayscalendar_days y m Hm12) as (weeks & Hw & _ & _ & Hdays).
  destruct (make_buttons_return self y m (button_days weeks) Hdict)
    as (buttons & Hb & Hbd & Hbg).
  exists y, m, buttons. unfold draw_calendar.
  rewrite Hsel. cbn [and_then fst snd]. rewrite Hw. cbn [and_then].
  repeat split; try assumption. now rewrite Hbd.
Qed.

End RenderingFacts.

Lemma month_blank_after_clear_witness :
  let self :=
    mkApp [((2024, 2, 29), DateData "Turtle" EmptyString);
           ((2024, 3, 1), DateData "Mint Cookie" EmptyString)] FileMissing in
  In "2024" (years 2026) /\ In "February" months /\ dict_wf (events self) /\
  exists weeks,
    month_weeks "2024" "February" = Returned weeks /\
    draw_calendar (fun _ => "[...]") "2024" "February"
      (snd (clear_month_selected "2024" "February" true WriteOk self))
    = Returned
        (map (fun cell =>
                mkButton (fst (fst cell) + 1) (snd (fst cell)) (snd cell)
                  (PyStr.str_int (snd cell)) "#e8f4ff")
           (button_days weeks)).
Proof.
  cbv zeta.
  assert (H1 : In "2024" (years 2026)) by (vm_compute; tauto).
  assert (H2 : In "February" months) by (vm_compute; tauto).
  assert (H3 : dict_wf
                 (events
                    (mkApp [((2024, 2, 29), DateData "Turtle" EmptyString);
                            ((2024, 3, 1), DateData "Mint Cookie" EmptyString)]
                       FileMissing))).
  { unfold dict_wf. simpl. repeat constructor; simpl; intuition discriminate. }
  split; [exact H1 | split; [exact H2 | split; [exact H3|]]].
  exact (month_blank_after_clear (fun _ => "[...]") 2026 "2024" "February" _
           WriteOk H1 H2 H3).
Defined.

Lemma draw_raises_on_non_dict_witness :
  let self := snd (CalendarApp_init (FileHolds (PDict [("2026-11-4", PInt 5)]))) in
  selection "2026" "November" = Returned (2026, 11) /\
  In (1, 2, 4)
    (button_days
       [[0; 0; 0; 0; 0; 0; 1]; [2; 3; 4; 5; 6; 7; 8]; [9; 10; 11; 12; 13; 14; 15];
        [16; 17; 18; 19; 20; 21; 22]; [23; 24; 25; 26; 27; 28; 29];
        [30; 0; 0; 0; 0; 0; 0]]) /\
  get self (2026, 11, 4) = Some (PInt 5) /\
  draw_calendar (fun _ => "[...]") "2026" "November" self = Raised AttributeError.
Proof.
  cbv zeta.
  assert (H1 : selection "2026" "November" = Returned (2026, 11)) by reflexivity.
  assert (H2 : PyCalendar.monthdayscalendar 0 2026 11
               = Returned
                   [[0; 0; 0; 0; 0; 0; 1]; [2; 3; 4; 5; 6; 7; 8];
                    [9; 10; 11; 12; 13; 14; 15]; [16; 17; 18; 19; 20; 21; 22];
                    [23; 24; 25; 26; 27; 28; 29]; [30; 0; 0; 0; 0; 0; 0]])
    by reflexivity.
  assert (H3 : In (1, 2, 4)
                 (button_days
                    [[0; 0; 0; 0; 0; 0; 1]; [2; 3; 4; 5; 6; 7; 8];
                     [9; 10; 11; 12; 13; 14; 15]; [16; 17; 18; 19; 20; 21; 22];
                     [23; 24; 25; 26; 27; 28; 29]; [30; 0; 0; 0; 0; 0; 0]]))
    by (vm_compute; tauto).
  assert (H4 : get (snd (CalendarApp_init
                           (FileHolds (PDict [("2026-11-4", PInt 5)]))))
                 (2026, 11, 4) = Some (PInt 5)) by reflexivity.
  assert (H5 : truthy (PInt 5) = true) by reflexivity.
  assert (H6 : forall entries, PInt 5 <> PDict entries)
    by (intros entries; discriminate).
  split; [exact H1 | split; [exact H3 | split; [exact H4|]]].
  exact (draw_raises_on_non_dict (fun _ => "[...]") "2026" "November" 2026 11 _ _
           1 2 4 (PInt 5) H1 H2 H3 H4 H5 H6).
Defined.

Lemma draw_returns_on_dicts_witness :
  let self := mkApp [((2021, 2, 14), DateData "Turtle" EmptyString)] FileMissing in
  In "2021" (years 2026) /\ In "February" months /\
  (forall k v, get self k = Some v -> truthy v = true ->
               exists entries, v = PDict entries) /\
  exists y m buttons,
    selection "2021" "February" = Returned (y, m) /\
    draw_calendar (fun _ => "[...]") "2021" "February" self = Returned buttons /\
    map btn_day buttons = py_range 1 (days_in_month y m + 1) /\
    Forall
      (fun b =>
         btn_bg b
         = if truthy_opt (get self (y, m, btn_day b))
           then "lightblue" else "#e8f4ff")
      buttons.
Proof.
  cbv zeta.
  assert (H1 : In "2021" (years 2026)) by (vm_compute; tauto).
  assert (H2 : In "February" months) by (vm_compute; tauto).
  assert (H3 : forall k v,
             get (mkApp [((2021, 2, 14), DateData "Turtle" EmptyString)]
                    FileMissing) k = Some v ->
             truthy v = true -> exists entries, v = PDict entries).
  { intros k v Hget _. apply dict_get_some_in in Hget.
    destruct Hget as [E | []]. injection E as _ <-. eexists. reflexivity. }
  split; [exact H1 | split; [exact H2 | split; [exact H3|]]].
  exact (draw_returns_on_dicts (fun _ => "[...]") 2026 "2021" "February" _
           H1 H2 H3).
Defined.

(** X18: the day dialog opens on the key of the clicked day; for a day
    without an entry the drop-down shows the first of [EVENT_CHOICES] and
    the note field is empty, and for a day with a record written by [set]
    they show its choice and its note. *)
Theorem dialog_shows_the_record (year_var month_var : string) (y m day : Z)
    (self : CalendarApp) :
  selection year_var month_var = Returned (y, m) ->
  (get self (y, m, day) = None ->
   open_event_dialog year_var month_var day self
   = Returned (mkDialog (y, m, day) (PStr "Butter Pecan") None)) /\
  (forall choice note,
      get self (y, m, day) = Some (DateData choice note) ->
      open_event_dialog year_var month_var day self
      = Returned
          (mkDialog (y, m, day) (PStr choice)
             match note with
             | EmptyString => None
             | _ => Some (PStr note)
             end)).
Proof.
  intros Hsel. unfold open_event_dialog, get. rewrite Hsel. cbn [and_then fst snd].
  split.
  - intros E. rewrite E. reflexivity.
  - intros choice note E. rewrite E. destruct note; reflexivity.
Qed.

Lemma dialog_shows_the_record_witness :
  let self := mkApp [((2026, 11, 4), DateData "Turtle" "buy two")] FileMissing in
  selection "2026" "November" = Returned (2026, 11) /\
  open_event_dialog "2026" "November" 5 self
  = Returned (mkDialog (2026, 11, 5) (PStr "Butter Pecan") None) /\
  open_event_dialog "2026" "November" 4 self
  = Returned (mkDialog (2026, 11, 4) (PStr "Turtle") (Some (PStr "buy two"))).
Proof.
  cbv zeta.
  assert (H1 : selection "2026" "November" = Returned (2026, 11)) by reflexivity.
  split; [exact H1 | split].
  - exact (proj1 (dialog_shows_the_record "2026" "November" 2026 11 5
                    (mkApp [((2026, 11, 4), DateData "Turtle" "buy two")]
                       FileMissing) H1) eq_refl).
  - exact (proj2 (dialog_shows_the_record "2026" "November" 2026 11 4
                    (mkApp [((2026, 11, 4), DateData "Turtle" "buy two")]
                       FileMissing) H1)
             "Turtle" "buy two" eq_refl).
Defined.

(** X19: the first successful save after a start rewrites the file in the
    program's own form, whatever the file was: every value is no longer a
    bare string, and every key is the unpadded key of a date without
    negative component, which reads back as that date. *)
Theorem first_save_normalizes_file (file : file_state) :
  exists data,
    _save_events WriteOk (snd (CalendarApp_init file))
    = (Returned tt,
       mkApp (events (snd (CalendarApp_init file))) (FileHolds (PDict data))) /\
    Forall
      (fun item =>
         (forall s, snd item <> PStr s) /\
         exists k, date_nonneg k /\ fst item = date_key_str k /\
                   composite_key k (fst item) /\
                   parse_date (fst item) = Some k)
      data.
Proof.
  pose proof (CalendarApp_init_ok file) as [Hwf Hnn].
  pose proof (init_no_bare_string file) as Hns.
  exists (dict_comprehension date_key_str (events (snd (CalendarApp_init file)))).
  split; [apply _save_events_eq|].
  rewrite saved_document by assumption.
  unfold no_bare_string, dict_keys in *. rewrite Forall_forall in *.
  intros item Hin. apply in_map_iff in Hin as ([k v] & <- & Hin). cbn [fst snd].
  split; [exact (Hns _ Hin)|].
  assert (Hk : date_nonneg k).
  { apply Hnn. change k with (fst (k, v)). now apply in_map. }
  exists k. repeat split; try assumption.
  - apply date_key_str_composite.
  - now apply parse_date_key_str.
Qed.

Example first_save_of_legacy_file :
  _data_file
    (snd (_save_events WriteOk
            (snd (CalendarApp_init
                    (FileHolds (PDict [("2024-03-07", PStr "Turtle");
                                       (" 2024 - +3 - 0_8 ", PInt 5)]))))))
  = FileHolds (PDict [("2024-3-7", DateData "Turtle" EmptyString);
                      ("2024-3-8", PInt 5)]).
Proof. reflexivity. Qed.

(** ** When the handlers return *)




Section ReturnFacts.
Variable repr_container : pyval -> string.




End ReturnFacts.

